(** * DSA key and signature codecs of python-pkcs11 ([pkcs11/util/dsa.py])

    A shallow embedding of the six conversion functions of
    [pkcs11/util/dsa.py] together with the parts of their environment that
    they call: Python's [int.from_bytes] / [int.to_bytes], the [biginteger]
    helper of [pkcs11/util/__init__.py], and the DER codec of pyasn1 for the
    three RFC 3279 schemas ([Dss-Parms], [DSAPublicKey], [Dss-Sig-Value]).

    Python exceptions are modelled by an error monad; byte strings are lists
    of [Byte.byte]; Python integers are [Z]; dictionaries keyed by
    [Attribute] are [gmap Attribute (list byte)]. *)

From Stdlib Require Import ZArith List Lia Strings.Byte.
From stdpp Require Import base option list gmap.
Import ListNotations.

Local Open Scope Z_scope.

(** ** Failure outcomes

    Each constructor stands for the Python exception that the code raises;
    the names are those of the specification's error kinds. *)

Inductive error : Set :=
  | MISSING_ATTRIBUTE   (* KeyError raised by [obj[Attribute.X]] *)
  | DECODE_ERROR        (* pyasn1 error raised by [decoder.decode] *)
  | ENCODE_ERROR        (* pyasn1 error raised by [encoder.encode] *)
  | OVERFLOW            (* OverflowError raised by [int.to_bytes] *)
  | INVALID_INPUT.      (* a violated precondition on a value *)

Inductive result (A : Type) : Type :=
  | Ok (a : A)
  | Err (e : error).

Arguments Ok {A} a.
Arguments Err {A} e.

#[export] Instance result_ret : MRet result := fun A a => Ok a.
#[export] Instance result_bind : MBind result := fun A B f m =>
  match m with
  | Ok a => f a
  | Err e => Err e
  end.

(** Run the binds whose first computation is already a value. *)
Ltac run_bind := cbn [mbind result_bind mret result_ret].

(** ** Bytes *)

Abbreviation bytes := (list byte).

Definition Z_of_byte (b : byte) : Z := Z.of_N (Byte.to_N b).

Definition byte_of_Z (z : Z) : byte :=
  match Byte.of_N (Z.to_N (z mod 256)) with
  | Some b => b
  | None => x00
  end.

(** The longest [bytes] object CPython can hold ([sys.maxsize] on a 64-bit
    build); every buffer the functions receive is at most this long. *)
Definition PY_SSIZE_T_MAX : Z := 2 ^ 63 - 1.

Definition is_bytes (b : bytes) : Prop := Z.of_nat (length b) <= PY_SSIZE_T_MAX.

(** ** Python's integer / bytes conversions *)

Module Py.

(** [int.from_bytes(b, byteorder='big')]: unsigned, empty buffer is 0. *)
Definition int_from_bytes (b : bytes) : Z :=
  fold_left (fun acc x => acc * 256 + Z_of_byte x) b 0.

(** The [n] low-order base-256 digits of [v], most significant first. *)
Fixpoint be_digits (n : nat) (v : Z) : bytes :=
  match n with
  | O => []
  | S k => be_digits k (v / 256) ++ [byte_of_Z v]
  end.

(** [v.to_bytes(len, byteorder='big')] (unsigned): OverflowError on a
    negative [v] and on a [v] that needs more than [len] bytes. *)
Definition int_to_bytes (v : Z) (len : nat) : result bytes :=
  if v <? 0 then Err OVERFLOW
  else if 256 ^ Z.of_nat len <=? v then Err OVERFLOW
  else Ok (be_digits len v).

(** [v.bit_length()]: bits of [abs v], 0 for 0. *)
Definition bit_length (v : Z) : Z :=
  if v =? 0 then 0 else Z.log2 (Z.abs v) + 1.

(** Bytes needed for the unsigned representation of [v]:
    [(v.bit_length() + 7) // 8]. *)
Definition byte_length (v : Z) : nat :=
  Z.to_nat ((bit_length v + 7) / 8).

End Py.

(** ** The big-integer helper *)

(** Modelled from the spec: the [biginteger] helper of
    [pkcs11/util/__init__.py], which [dsa.py] imports and which is not among
    the sources. The spec's [encode(integer) -> bytes] (section 4.1): the
    shortest big-endian unsigned byte sequence of the value, a single zero
    byte for zero, INVALID_INPUT for a negative integer. *)
Definition biginteger (v : Z) : result bytes :=
  if v <? 0 then Err INVALID_INPUT
  else if v =? 0 then Ok [x00]
  else Ok (Py.be_digits (Py.byte_length v) v).

(** ** Attribute maps *)

(** Modelled from the spec: the [Attribute] enumeration of
    [pkcs11/constants.py], not among the sources; the spec gives the closed
    enumeration BASE, PRIME, SUBPRIME, VALUE. *)
Inductive Attribute : Set := BASE | PRIME | SUBPRIME | VALUE.

#[export] Instance Attribute_eq_dec : EqDecision Attribute.
Proof. solve_decision. Defined.

Definition Attribute_to_nat (a : Attribute) : nat :=
  match a with BASE => 0 | PRIME => 1 | SUBPRIME => 2 | VALUE => 3 end%nat.

Definition Attribute_of_nat (n : nat) : option Attribute :=
  match n with
  | 0 => Some BASE | 1 => Some PRIME | 2 => Some SUBPRIME | 3 => Some VALUE
  | _ => None
  end%nat.

#[export] Instance Attribute_countable : Countable Attribute.
Proof.
  apply (inj_countable Attribute_to_nat Attribute_of_nat).
  intros []; reflexivity.
Defined.

(** [obj[key]] on a dictionary: KeyError when the key is absent. *)
Definition getitem (obj : gmap Attribute bytes) (key : Attribute) : result bytes :=
  match obj !! key with
  | Some b => Ok b
  | None => Err MISSING_ATTRIBUTE
  end.

(** ** pyasn1's DER codec, for INTEGER and SEQUENCE of INTEGER

    [encoder.encode] and [decoder.decode] of [pyasn1.codec.der], restricted
    to what the three schemas of [pyasn1_modules.rfc3279] need: the two
    universal tags INTEGER and SEQUENCE, definite lengths, INTEGER contents
    in two's complement. The decoder returns the decoded value together with
    the unread rest of its input. *)

Module DER.

(** A tag: class (bits 0xC0 of the first identifier octet), format (bit
    0x20: simple or constructed) and number. *)
Record Tag : Set := { tagClass : Z; tagFormat : Z; tagId : Z }.

Definition TAG_INTEGER : Tag := {| tagClass := 0x00; tagFormat := 0x00; tagId := 0x02 |}.
Definition TAG_SEQUENCE : Tag := {| tagClass := 0x00; tagFormat := 0x20; tagId := 0x10 |}.

(** The identifier octet of a tag whose number is below 31. *)
Definition encode_tag (t : Tag) : byte :=
  byte_of_Z (Z.lor (Z.lor (tagClass t) (tagFormat t)) (tagId t)).

(** Length octets: short form below 128, otherwise [0x80 | k] followed by
    the [k] octets of the length; pyasn1 refuses [k > 126]. *)
Definition encode_length (n : nat) : result bytes :=
  if (n <? 128)%nat then Ok [byte_of_Z (Z.of_nat n)]
  else
    let sub := Py.be_digits (Py.byte_length (Z.of_nat n)) (Z.of_nat n) in
    if (126 <? length sub)%nat then Err ENCODE_ERROR
    else Ok (byte_of_Z (0x80 + Z.of_nat (length sub)) :: sub).

Definition encode_tlv (tag : Tag) (content : bytes) : result bytes :=
  len ← encode_length (length content);
  Ok (encode_tag tag :: len ++ content).

(** Content octets of an INTEGER: zero is the single octet 0; otherwise
    the value in two's complement on [bit_length // 8 + 1] octets, which
    leaves room for the sign bit. *)
Definition integer_octets (v : Z) : bytes :=
  if v =? 0 then [x00]
  else
    let n := Z.to_nat (Py.bit_length v / 8 + 1) in
    Py.be_digits n (v mod 256 ^ Z.of_nat n).

Definition encode_integer (v : Z) : result bytes :=
  encode_tlv TAG_INTEGER (integer_octets v).

Fixpoint encode_components (vs : list Z) : result bytes :=
  match vs with
  | [] => Ok []
  | v :: vs' =>
      c ← encode_integer v;
      cs ← encode_components vs';
      Ok (c ++ cs)
  end.

Definition encode_sequence (vs : list Z) : result bytes :=
  content ← encode_components vs;
  encode_tlv TAG_SEQUENCE content.

(** Length octets: 0x80 (indefinite length) is not DER; a long form whose
    octets are cut short is a substrate underrun. *)
Definition decode_length (s : bytes) : result (nat * bytes) :=
  match s with
  | [] => Err DECODE_ERROR
  | b :: rest =>
      let o := Z_of_byte b in
      if o <? 0x80 then Ok (Z.to_nat o, rest)
      else if o =? 0x80 then Err DECODE_ERROR
      else
        let size := Z.to_nat (o - 0x80) in
        if (length rest <? size)%nat then Err DECODE_ERROR
        else Ok (Z.to_nat (Py.int_from_bytes (take size rest)), drop size rest)
  end.

(** A tag number of 31 or more, seven bits per octet, the last octet with
    its high bit clear. *)
Fixpoint decode_tag_number (tagId : Z) (s : bytes) : result (Z * bytes) :=
  match s with
  | [] => Err DECODE_ERROR
  | b :: s' =>
      let o := Z_of_byte b in
      let tagId' := Z.lor (Z.shiftl tagId 7) (Z.land o 0x7F) in
      if Z.land o 0x80 =? 0 then Ok (tagId', s')
      else decode_tag_number tagId' s'
  end.

(** Identifier octets: a number field of 0x1F in the first octet announces
    the number in the octets that follow. *)
Definition decode_tag (s : bytes) : result (Tag * bytes) :=
  match s with
  | [] => Err DECODE_ERROR
  | b :: s' =>
      let o := Z_of_byte b in
      let cls := Z.land o 0xC0 in
      let fmt := Z.land o 0x20 in
      let id := Z.land o 0x1F in
      if id =? 0x1F then
        '(id', s'') ← decode_tag_number 0 s';
        Ok ({| tagClass := cls; tagFormat := fmt; tagId := id' |}, s'')
      else Ok ({| tagClass := cls; tagFormat := fmt; tagId := id |}, s')
  end.

(** One tag-length-value with the expected tag: its content octets and
    what follows them. The tag must have the class and number of the
    schema's type, and the format of that type. *)
Definition decode_tlv (tag : Tag) (s : bytes) : result (bytes * bytes) :=
  '(t, s') ← decode_tag s;
  '(n, body) ← decode_length s';
  if (length body <? n)%nat then Err DECODE_ERROR
  else if (tagClass t =? tagClass tag) && (tagId t =? tagId tag)
          && (tagFormat t =? tagFormat tag)
  then Ok (take n body, drop n body)
  else Err DECODE_ERROR.

(** INTEGER contents: signed big-endian; no octets decode as 0. *)
Definition integer_value (c : bytes) : Z :=
  match c with
  | [] => 0
  | b :: _ =>
      let u := Py.int_from_bytes c in
      if 0x80 <=? Z_of_byte b then u - 256 ^ Z.of_nat (length c) else u
  end.

Definition decode_integer (s : bytes) : result (Z * bytes) :=
  '(c, rest) ← decode_tlv TAG_INTEGER s;
  Ok (integer_value c, rest).

(** The [n] INTEGER components of a SEQUENCE, which must use up the
    content exactly. *)
Fixpoint decode_components (n : nat) (head : bytes) : result (list Z) :=
  match n with
  | O =>
      match head with
      | [] => Ok []
      | _ :: _ => Err DECODE_ERROR
      end
  | S k =>
      '(v, head') ← decode_integer head;
      vs ← decode_components k head';
      Ok (v :: vs)
  end.

Definition decode_sequence (n : nat) (s : bytes) : result (list Z * bytes) :=
  '(content, rest) ← decode_tlv TAG_SEQUENCE s;
  vs ← decode_components n content;
  Ok (vs, rest).

(** *** The RFC 3279 schemas *)

(** Dss-Parms ::= SEQUENCE { p INTEGER, q INTEGER, g INTEGER } *)
Record Dss_Parms : Set := { p : Z; q : Z; g : Z }.

(** Dss-Sig-Value ::= SEQUENCE { r INTEGER, s INTEGER } *)
Record Dss_Sig_Value : Set := { r : Z; s : Z }.

Definition encode_Dss_Parms (a : Dss_Parms) : result bytes :=
  encode_sequence [p a; q a; g a].

Definition decode_Dss_Parms (der : bytes) : result (Dss_Parms * bytes) :=
  '(vs, rest) ← decode_sequence 3 der;
  match vs with
  | [vp; vq; vg] => Ok ({| p := vp; q := vq; g := vg |}, rest)
  | _ => Err DECODE_ERROR
  end.

Definition encode_Dss_Sig_Value (a : Dss_Sig_Value) : result bytes :=
  encode_sequence [r a; s a].

Definition decode_Dss_Sig_Value (der : bytes) : result (Dss_Sig_Value * bytes) :=
  '(vs, rest) ← decode_sequence 2 der;
  match vs with
  | [vr; vs'] => Ok ({| r := vr; s := vs' |}, rest)
  | _ => Err DECODE_ERROR
  end.

(** DSAPublicKey ::= INTEGER *)
Definition encode_DSAPublicKey (y : Z) : result bytes := encode_integer y.

Definition decode_DSAPublicKey (der : bytes) : result (Z * bytes) :=
  decode_integer der.

End DER.

(** ** The functions of [pkcs11/util/dsa.py] *)

(** [decode_dsa_domain_parameters(der)]: the remainder returned by the
    decoder is dropped. *)
Definition decode_dsa_domain_parameters (der : bytes) : result (gmap Attribute bytes) :=
  '(params, _) ← DER.decode_Dss_Parms der;
  base ← biginteger (DER.g params);
  prime ← biginteger (DER.p params);
  subprime ← biginteger (DER.q params);
  Ok (<[BASE := base]> (<[PRIME := prime]> (<[SUBPRIME := subprime]> ∅))).

(** [encode_dsa_domain_parameters(obj)]: the fields are read in the order
    g, p, q and encoded in the schema's order p, q, g. *)
Definition encode_dsa_domain_parameters (obj : gmap Attribute bytes) : result bytes :=
  base ← getitem obj BASE;
  let g := Py.int_from_bytes base in
  prime ← getitem obj PRIME;
  let p := Py.int_from_bytes prime in
  subprime ← getitem obj SUBPRIME;
  let q := Py.int_from_bytes subprime in
  DER.encode_Dss_Parms {| DER.p := p; DER.q := q; DER.g := g |}.

(** [encode_dsa_public_key(key)] *)
Definition encode_dsa_public_key (key : gmap Attribute bytes) : result bytes :=
  value ← getitem key VALUE;
  DER.encode_DSAPublicKey (Py.int_from_bytes value).

(** [decode_dsa_public_key(der)] *)
Definition decode_dsa_public_key (der : bytes) : result bytes :=
  '(asn1, _) ← DER.decode_DSAPublicKey der;
  biginteger asn1.

(** [encode_dsa_signature(signature)]: split at [len(signature) // 2]. *)
Definition encode_dsa_signature (signature : bytes) : result bytes :=
  let part := (length signature / 2)%nat in
  let r := take part signature in
  let s := drop part signature in
  DER.encode_Dss_Sig_Value
    {| DER.r := Py.int_from_bytes r; DER.s := Py.int_from_bytes s |}.

(** [decode_dsa_signature(der)]: r and s are both written on 20 bytes. *)
Definition decode_dsa_signature (der : bytes) : result bytes :=
  '(asn1, _) ← DER.decode_Dss_Sig_Value der;
  let r := DER.r asn1 in
  let s := DER.s asn1 in
  rb ← Py.int_to_bytes r 20;
  sb ← Py.int_to_bytes s 20;
  Ok (rb ++ sb).

(** ** Concrete runs *)

Definition der_sig_1_1 : bytes := [x30; x06; x02; x01; x01; x02; x01; x01].

Example encode_sig_1_1 :
  DER.encode_Dss_Sig_Value {| DER.r := 1; DER.s := 1 |} = Ok der_sig_1_1.
Proof. vm_compute. reflexivity. Qed.

Example decode_sig_1_1 :
  decode_dsa_signature der_sig_1_1 = Ok (repeat x00 19 ++ [x01] ++ repeat x00 19 ++ [x01]).
Proof. vm_compute. reflexivity. Qed.

(** * Properties *)

(** ** Bytes and their values *)

Lemma Z_of_byte_range (b : byte) : 0 <= Z_of_byte b < 256.
Proof.
  unfold Z_of_byte. pose proof (Byte.to_N_bounded b). lia.
Qed.

Lemma byte_of_Z_of_byte (b : byte) : byte_of_Z (Z_of_byte b) = b.
Proof.
  unfold byte_of_Z. rewrite Z.mod_small by apply Z_of_byte_range.
  unfold Z_of_byte. rewrite N2Z.id, Byte.of_to_N. reflexivity.
Qed.

Lemma Z_of_byte_of_Z (z : Z) : Z_of_byte (byte_of_Z z) = z mod 256.
Proof.
  assert (Hr : 0 <= z mod 256 < 256) by (apply Z.mod_pos_bound; lia).
  unfold byte_of_Z, Z_of_byte.
  destruct (Byte.of_N (Z.to_N (z mod 256))) as [b|] eqn:E.
  - apply Byte.to_of_N in E. rewrite E. lia.
  - apply Byte.of_N_None_iff in E. lia.
Qed.

Lemma byte_of_Z_shift (a x : Z) : byte_of_Z (a * 256 + x) = byte_of_Z x.
Proof.
  unfold byte_of_Z. rewrite Z.add_comm, Z_mod_plus_full. reflexivity.
Qed.

Lemma Z_of_byte_small (z : Z) : 0 <= z < 256 -> Z_of_byte (byte_of_Z z) = z.
Proof. intros H. rewrite Z_of_byte_of_Z. apply Z.mod_small, H. Qed.

(** ** Big-endian digits *)

Section BigEndian.

Import Py.

Lemma int_from_bytes_snoc (l : bytes) (b : byte) :
  int_from_bytes (l ++ [b]) = int_from_bytes l * 256 + Z_of_byte b.
Proof. unfold int_from_bytes. rewrite fold_left_app. reflexivity. Qed.

Lemma int_from_bytes_range (l : bytes) :
  0 <= int_from_bytes l < 256 ^ Z.of_nat (length l).
Proof.
  induction l as [|b l IH] using rev_ind.
  - cbn. lia.
  - rewrite int_from_bytes_snoc, length_app. cbn [length].
    replace (Z.of_nat (length l + 1)) with (Z.succ (Z.of_nat (length l))) by lia.
    rewrite Z.pow_succ_r by lia.
    pose proof (Z_of_byte_range b). lia.
Qed.

Lemma be_digits_length (n : nat) (v : Z) : length (be_digits n v) = n.
Proof.
  revert v. induction n as [|n IH]; intros v; cbn [be_digits].
  - reflexivity.
  - rewrite length_app, IH. cbn. lia.
Qed.

(** Reading back [n] digits gives the value modulo [256 ^ n]. *)
Lemma int_from_bytes_be_digits (n : nat) (v : Z) :
  int_from_bytes (be_digits n v) = v mod 256 ^ Z.of_nat n.
Proof.
  revert v. induction n as [|n IH]; intros v; cbn [be_digits].
  - cbn. rewrite Z.mod_1_r. reflexivity.
  - rewrite int_from_bytes_snoc, IH, Z_of_byte_of_Z.
    replace (Z.of_nat (S n)) with (Z.succ (Z.of_nat n)) by lia.
    rewrite Z.pow_succ_r by lia.
    rewrite (Z.rem_mul_r v 256 (256 ^ Z.of_nat n)) by lia. lia.
Qed.

Lemma int_from_bytes_be_digits_small (n : nat) (v : Z) :
  0 <= v < 256 ^ Z.of_nat n -> int_from_bytes (be_digits n v) = v.
Proof. intros H. rewrite int_from_bytes_be_digits. apply Z.mod_small, H. Qed.

(** Writing the value of a buffer on as many digits gives the buffer. *)
Lemma be_digits_int_from_bytes (l : bytes) :
  be_digits (length l) (int_from_bytes l) = l.
Proof.
  induction l as [|b l IH] using rev_ind.
  - reflexivity.
  - rewrite length_app, Nat.add_comm. cbn [length Nat.add be_digits].
    rewrite int_from_bytes_snoc, byte_of_Z_shift, byte_of_Z_of_byte.
    pose proof (Z_of_byte_range b).
    rewrite Z.div_add_l by lia. rewrite Z.div_small by lia.
    rewrite Z.add_0_r, IH. reflexivity.
Qed.

(** The leading digit. *)
Lemma be_digits_S (n : nat) (v : Z) :
  be_digits (S n) v = byte_of_Z (v / 256 ^ Z.of_nat n) :: be_digits n v.
Proof.
  revert v. induction n as [|n IH]; intros v.
  - cbn. rewrite Z.div_1_r. reflexivity.
  - change (be_digits (S (S n)) v)
      with (be_digits (S n) (v / 256) ++ [byte_of_Z v]).
    rewrite IH. cbn [be_digits app].
    replace (Z.of_nat (S n)) with (Z.succ (Z.of_nat n)) by lia.
    rewrite Z.pow_succ_r by lia.
    rewrite Z.div_div by lia. reflexivity.
Qed.

(** A value that fits on [n] digits is left-padded with zero bytes on
    more digits. *)
Lemma be_digits_pad (k n : nat) (v : Z) :
  0 <= v < 256 ^ Z.of_nat n ->
  be_digits (k + n) v = repeat x00 k ++ be_digits n v.
Proof.
  intros Hv. induction k as [|k IH].
  - reflexivity.
  - change (S k + n)%nat with (S (k + n)).
    rewrite be_digits_S, IH. cbn [repeat app]. f_equal.
    rewrite Z.div_small; [reflexivity|].
    split; [lia|].
    apply Z.lt_le_trans with (256 ^ Z.of_nat n); [lia|].
    apply Z.pow_le_mono_r; lia.
Qed.

Lemma bit_length_nonneg (v : Z) : 0 <= bit_length v.
Proof.
  unfold bit_length. destruct (v =? 0); [lia|].
  pose proof (Z.log2_nonneg (Z.abs v)). lia.
Qed.

Lemma bit_length_spec (v : Z) : 0 <= v -> v < 2 ^ bit_length v.
Proof.
  intros Hv. unfold bit_length. destruct (Z.eqb_spec v 0) as [->|Hne].
  - cbn. lia.
  - rewrite Z.abs_eq by lia.
    pose proof (Z.log2_spec v ltac:(lia)) as [_ H].
    replace (Z.log2 v + 1) with (Z.succ (Z.log2 v)) by lia. exact H.
Qed.

Lemma bit_length_le (v : Z) (n : Z) :
  0 <= n -> 0 <= v < 2 ^ n -> bit_length v <= n.
Proof.
  intros Hn Hv. unfold bit_length. destruct (Z.eqb_spec v 0) as [->|Hne].
  - lia.
  - rewrite Z.abs_eq by lia.
    assert (Z.log2 v < n) by (apply Z.log2_lt_pow2; lia). lia.
Qed.

Lemma pow_256 (n : Z) : 0 <= n -> 256 ^ n = 2 ^ (8 * n).
Proof. intros Hn. rewrite Z.pow_mul_r by lia. reflexivity. Qed.

(** [byte_length v] bytes are enough for [v] ... *)
Lemma byte_length_spec (v : Z) :
  0 <= v -> v < 256 ^ Z.of_nat (byte_length v).
Proof.
  intros Hv. unfold byte_length.
  pose proof (bit_length_nonneg v) as H0.
  pose proof (bit_length_spec v Hv) as H1.
  rewrite Z2Nat.id by (apply Z.div_pos; lia).
  rewrite pow_256 by (apply Z.div_pos; lia).
  eapply Z.lt_le_trans; [exact H1|].
  apply Z.pow_le_mono_r; [lia|].
  pose proof (Z.mul_div_le (bit_length v + 7) 8 ltac:(lia)).
  pose proof (Z.mod_pos_bound (bit_length v + 7) 8 ltac:(lia)).
  pose proof (Z.div_mod (bit_length v + 7) 8 ltac:(lia)). lia.
Qed.

(** ... and no buffer that holds [v] is shorter. *)
Lemma byte_length_le (v : Z) (n : nat) :
  0 <= v < 256 ^ Z.of_nat n -> (byte_length v <= n)%nat.
Proof.
  intros Hv. unfold byte_length.
  rewrite pow_256 in Hv by lia.
  pose proof (bit_length_le v (8 * Z.of_nat n) ltac:(lia) Hv) as H.
  pose proof (bit_length_nonneg v) as H0.
  assert ((bit_length v + 7) / 8 <= Z.of_nat n).
  { apply Z.lt_succ_r. apply Z.div_lt_upper_bound; lia. }
  lia.
Qed.

Lemma byte_length_pos (v : Z) : 0 < v -> (0 < byte_length v)%nat.
Proof.
  intros Hv. unfold byte_length, bit_length.
  destruct (Z.eqb_spec v 0) as [->|_]; [lia|].
  pose proof (Z.log2_nonneg (Z.abs v)).
  assert (1 <= (Z.log2 (Z.abs v) + 1 + 7) / 8).
  { apply Z.div_le_lower_bound; lia. }
  lia.
Qed.

End BigEndian.

(** ** The DER codec: encoding then decoding *)

Section DerRoundTrip.

Import Py DER.

(** A length below [256 ^ 126] has length octets, at most 127 of them. *)
Lemma encode_length_ok (n : nat) :
  Z.of_nat n < 256 ^ 126 ->
  exists l, encode_length n = Ok l /\ (length l <= 127)%nat.
Proof.
  intros Hn. unfold encode_length.
  destruct (Nat.ltb_spec n 128) as [Hs|Hl].
  - eexists; split; [reflexivity|cbn; lia].
  - rewrite be_digits_length.
    assert (Hk : (byte_length (Z.of_nat n) <= 126)%nat).
    { apply byte_length_le. change (Z.of_nat 126) with 126. lia. }
    destruct (Nat.ltb_spec 126 (byte_length (Z.of_nat n))) as [Hb|Hb]; [lia|].
    eexists; split; [reflexivity|].
    cbn [length]. rewrite be_digits_length. lia.
Qed.

Lemma decode_length_encode (n : nat) (l rest : bytes) :
  encode_length n = Ok l -> decode_length (l ++ rest) = Ok (n, rest).
Proof.
  unfold encode_length.
  destruct (Nat.ltb_spec n 128) as [Hs|Hl].
  - intros [= <-]. cbn [app decode_length].
    rewrite Z_of_byte_small by lia.
    destruct (Z.ltb_spec (Z.of_nat n) 0x80) as [_|Hge]; [|lia].
    rewrite Nat2Z.id. reflexivity.
  - set (k := byte_length (Z.of_nat n)).
    rewrite be_digits_length.
    destruct (Nat.ltb_spec 126 k) as [Hb|Hb]; [discriminate|].
    intros [= <-]. cbn [app decode_length].
    assert (Hpos : (0 < k)%nat) by (apply byte_length_pos; lia).
    rewrite Z_of_byte_small by lia.
    destruct (Z.ltb_spec (0x80 + Z.of_nat k) 0x80) as [Hlt|_]; [lia|].
    destruct (Z.eqb_spec (0x80 + Z.of_nat k) 0x80) as [Heq|_]; [lia|].
    replace (Z.to_nat (0x80 + Z.of_nat k - 0x80)) with k by lia.
    rewrite length_app, be_digits_length.
    destruct (Nat.ltb_spec (k + length rest) k) as [Hu|_]; [lia|].
    rewrite take_app_length', drop_app_length'
      by (rewrite be_digits_length; reflexivity).
    rewrite int_from_bytes_be_digits_small
      by (split; [lia | apply byte_length_spec; lia]).
    rewrite Nat2Z.id. reflexivity.
Qed.

Lemma encode_tlv_ok (tag : Tag) (c : bytes) :
  Z.of_nat (length c) < 256 ^ 126 ->
  exists e, encode_tlv tag c = Ok e /\ (length e <= length c + 128)%nat.
Proof.
  intros Hc. destruct (encode_length_ok _ Hc) as (l & Hl & Hlen).
  unfold encode_tlv. rewrite Hl. run_bind.
  eexists; split; [reflexivity|]. cbn [length]. rewrite length_app. lia.
Qed.

Lemma decode_tag_encode (tag : Tag) (rest : bytes) :
  tag = TAG_INTEGER \/ tag = TAG_SEQUENCE ->
  decode_tag (encode_tag tag :: rest) = Ok (tag, rest).
Proof. intros [->| ->]; reflexivity. Qed.

Lemma decode_tlv_encode (tag : Tag) (c e rest : bytes) :
  tag = TAG_INTEGER \/ tag = TAG_SEQUENCE ->
  encode_tlv tag c = Ok e -> decode_tlv tag (e ++ rest) = Ok (c, rest).
Proof.
  intros Htag. unfold encode_tlv.
  destruct (encode_length (length c)) as [l|err] eqn:El; [|discriminate].
  run_bind. intros [= <-]. unfold decode_tlv. cbn [app].
  rewrite (decode_tag_encode tag _ Htag). run_bind.
  rewrite <- app_assoc, (decode_length_encode _ _ _ El). run_bind.
  rewrite length_app.
  destruct (Nat.ltb_spec (length c + length rest) (length c)) as [Hu|_]; [lia|].
  rewrite !Z.eqb_refl. cbn [andb].
  rewrite take_app_length, drop_app_length. reflexivity.
Qed.

(** The content octets of a non-negative INTEGER decode to its value. *)
Lemma integer_value_octets (v : Z) :
  0 <= v -> integer_value (integer_octets v) = v.
Proof.
  intros Hv. unfold integer_octets.
  destruct (Z.eqb_spec v 0) as [->|Hne]; [reflexivity|].
  pose proof (bit_length_nonneg v) as HL.
  pose proof (bit_length_spec v Hv) as Hlt.
  set (m := Z.to_nat (bit_length v / 8)).
  assert (Hm : Z.of_nat m = bit_length v / 8)
    by (unfold m; rewrite Z2Nat.id; [reflexivity | apply Z.div_pos; lia]).
  replace (Z.to_nat (bit_length v / 8 + 1)) with (S m) by lia.
  assert (Hhi : v < 128 * 256 ^ Z.of_nat m).
  { change 128 with (2 ^ 7). rewrite pow_256, <- Z.pow_add_r by lia.
    eapply Z.lt_le_trans; [exact Hlt|].
    apply Z.pow_le_mono_r; [lia|].
    pose proof (Z.div_mod (bit_length v) 8 ltac:(lia)).
    pose proof (Z.mod_pos_bound (bit_length v) 8 ltac:(lia)). lia. }
  assert (Hpow : 0 < 256 ^ Z.of_nat m) by (apply Z.pow_pos_nonneg; lia).
  assert (Hfit : 0 <= v < 256 ^ Z.of_nat (S m)).
  { replace (Z.of_nat (S m)) with (Z.succ (Z.of_nat m)) by lia.
    rewrite Z.pow_succ_r by lia. lia. }
  rewrite Z.mod_small by exact Hfit.
  assert (Htop : 0 <= v / 256 ^ Z.of_nat m < 128).
  { split; [apply Z.div_pos; lia | apply Z.div_lt_upper_bound; lia]. }
  pose proof (int_from_bytes_be_digits_small (S m) v Hfit) as Hu.
  rewrite be_digits_S in Hu |- *. unfold integer_value.
  rewrite Z_of_byte_small by lia.
  destruct (Z.leb_spec 0x80 (v / 256 ^ Z.of_nat m)) as [Hge|_]; [lia|].
  exact Hu.
Qed.

(** An INTEGER below [256 ^ n] has at most [n + 1] content octets. *)
Lemma integer_octets_length (v : Z) (n : nat) :
  0 <= v < 256 ^ Z.of_nat n -> (length (integer_octets v) <= n + 1)%nat.
Proof.
  intros Hv. unfold integer_octets.
  destruct (Z.eqb_spec v 0) as [->|Hne]; [cbn; lia|].
  rewrite be_digits_length.
  rewrite pow_256 in Hv by lia.
  pose proof (bit_length_le v (8 * Z.of_nat n) ltac:(lia) Hv) as HL.
  pose proof (bit_length_nonneg v) as H0.
  assert (bit_length v / 8 <= Z.of_nat n).
  { apply Z.lt_succ_r. apply Z.div_lt_upper_bound; lia. }
  assert (0 <= bit_length v / 8) by (apply Z.div_pos; lia).
  lia.
Qed.

Lemma decode_integer_encode (v : Z) (e rest : bytes) :
  0 <= v ->
  encode_integer v = Ok e -> decode_integer (e ++ rest) = Ok (v, rest).
Proof.
  intros Hv He. unfold decode_integer.
  rewrite (decode_tlv_encode TAG_INTEGER _ _ rest (or_introl eq_refl) He).
  run_bind. rewrite integer_value_octets by exact Hv. reflexivity.
Qed.

Lemma decode_components_encode (vs : list Z) (cs : bytes) :
  Forall (fun v => 0 <= v) vs ->
  encode_components vs = Ok cs ->
  decode_components (length vs) cs = Ok vs.
Proof.
  intros Hvs. revert cs.
  induction Hvs as [|v vs Hv _ IH]; intros cs; cbn [encode_components].
  - intros [= <-]. reflexivity.
  - destruct (encode_integer v) as [c|err] eqn:Ec; [|discriminate]. run_bind.
    destruct (encode_components vs) as [cs'|err] eqn:Ecs; [|discriminate]. run_bind.
    intros [= <-]. cbn [length decode_components].
    rewrite (decode_integer_encode v c cs' Hv Ec). run_bind.
    rewrite (IH cs' eq_refl). reflexivity.
Qed.

Lemma decode_sequence_encode (vs : list Z) (e rest : bytes) :
  Forall (fun v => 0 <= v) vs ->
  encode_sequence vs = Ok e ->
  decode_sequence (length vs) (e ++ rest) = Ok (vs, rest).
Proof.
  intros Hvs. unfold encode_sequence.
  destruct (encode_components vs) as [cs|err] eqn:Ecs; [|discriminate]. run_bind.
  intros He. unfold decode_sequence.
  rewrite (decode_tlv_encode TAG_SEQUENCE _ _ rest (or_intror eq_refl) He).
  run_bind. rewrite (decode_components_encode vs cs Hvs Ecs). reflexivity.
Qed.

(** Integers that each fit a buffer of at most [n] bytes are encoded, on
    at most [n + 129] octets each. *)
Lemma encode_integer_ok (v : Z) (n : nat) :
  0 <= v < 256 ^ Z.of_nat n -> Z.of_nat n < 2 ^ 64 ->
  exists e, encode_integer v = Ok e /\ (length e <= n + 129)%nat.
Proof.
  intros Hv Hn. pose proof (integer_octets_length v n Hv) as Hlen.
  destruct (encode_tlv_ok TAG_INTEGER (integer_octets v)) as (e & He & Hle).
  { eapply Z.le_lt_trans with (2 ^ 64); [lia|]. reflexivity. }
  exists e. split; [exact He|lia].
Qed.

Lemma encode_components_ok (vs : list Z) (n : nat) :
  Forall (fun v => 0 <= v < 256 ^ Z.of_nat n) vs -> Z.of_nat n < 2 ^ 64 ->
  exists cs, encode_components vs = Ok cs
             /\ (length cs <= length vs * (n + 129))%nat.
Proof.
  intros Hvs Hn. induction Hvs as [|v vs Hv _ IH]; cbn [encode_components].
  - exists []. split; [reflexivity|cbn; lia].
  - destruct (encode_integer_ok v n Hv Hn) as (c & -> & Hc).
    destruct IH as (cs & -> & Hcs). run_bind.
    eexists; split; [reflexivity|]. rewrite length_app. cbn [length]. lia.
Qed.

Lemma encode_sequence_ok (vs : list Z) (n : nat) :
  Forall (fun v => 0 <= v < 256 ^ Z.of_nat n) vs -> Z.of_nat n < 2 ^ 64 ->
  (length vs <= 3)%nat ->
  exists e, encode_sequence vs = Ok e.
Proof.
  intros Hvs Hn H3.
  destruct (encode_components_ok vs n Hvs Hn) as (cs & Hcs & Hlen).
  unfold encode_sequence. rewrite Hcs. run_bind.
  destruct (encode_tlv_ok TAG_SEQUENCE cs) as (e & He & _).
  - apply Z.le_lt_trans with (3 * (2 ^ 64 + 129)); [nia|reflexivity].
  - exists e. exact He.
Qed.

End DerRoundTrip.

(** ** The schemas: encoding then decoding *)

Section Schemas.

Import Py DER.

Lemma decode_Dss_Sig_Value_encode (a : Dss_Sig_Value) (e rest : bytes) :
  0 <= r a -> 0 <= s a ->
  encode_Dss_Sig_Value a = Ok e ->
  decode_Dss_Sig_Value (e ++ rest) = Ok (a, rest).
Proof.
  intros Hr Hs He. unfold decode_Dss_Sig_Value.
  change 2%nat with (length [r a; s a]).
  rewrite (decode_sequence_encode [r a; s a] e rest); [|auto|exact He].
  destruct a; reflexivity.
Qed.

Lemma decode_Dss_Parms_encode (a : Dss_Parms) (e rest : bytes) :
  0 <= p a -> 0 <= q a -> 0 <= g a ->
  encode_Dss_Parms a = Ok e ->
  decode_Dss_Parms (e ++ rest) = Ok (a, rest).
Proof.
  intros Hp Hq Hg He. unfold decode_Dss_Parms.
  change 3%nat with (length [p a; q a; g a]).
  rewrite (decode_sequence_encode [p a; q a; g a] e rest); [|auto|exact He].
  destruct a; reflexivity.
Qed.

(** The value of a buffer fits a buffer of that length. *)
Lemma int_to_bytes_from_bytes (l : bytes) :
  int_to_bytes (int_from_bytes l) (length l) = Ok l.
Proof.
  pose proof (int_from_bytes_range l) as [Hlo Hhi]. unfold int_to_bytes.
  destruct (Z.ltb_spec (int_from_bytes l) 0) as [Hn|_]; [lia|].
  destruct (Z.leb_spec (256 ^ Z.of_nat (length l)) (int_from_bytes l)) as [Hb|_]; [lia|].
  rewrite be_digits_int_from_bytes. reflexivity.
Qed.

Lemma int_to_bytes_ok (v : Z) (n : nat) :
  0 <= v < 256 ^ Z.of_nat n -> int_to_bytes v n = Ok (be_digits n v).
Proof.
  intros [Hlo Hhi]. unfold int_to_bytes.
  destruct (Z.ltb_spec v 0) as [Hn|_]; [lia|].
  destruct (Z.leb_spec (256 ^ Z.of_nat n) v) as [Hb|_]; [lia|]. reflexivity.
Qed.

Lemma int_to_bytes_overflow (v : Z) (n : nat) :
  v < 0 \/ 256 ^ Z.of_nat n <= v -> int_to_bytes v n = Err OVERFLOW.
Proof.
  intros H. unfold int_to_bytes.
  destruct (Z.ltb_spec v 0) as [_|Hn]; [reflexivity|].
  destruct (Z.leb_spec (256 ^ Z.of_nat n) v) as [_|Hb]; [reflexivity|lia].
Qed.

Lemma int_to_bytes_inv (v : Z) (n : nat) (b : bytes) :
  int_to_bytes v n = Ok b ->
  0 <= v < 256 ^ Z.of_nat n /\ b = be_digits n v.
Proof.
  unfold int_to_bytes.
  destruct (Z.ltb_spec v 0) as [|Hn]; [discriminate|].
  destruct (Z.leb_spec (256 ^ Z.of_nat n) v) as [|Hb]; [discriminate|].
  intros [= <-]. auto.
Qed.

Lemma pow_256_20 : 256 ^ Z.of_nat 20 = 2 ^ 160.
Proof. reflexivity. Qed.

(** The helper succeeds exactly on the non-negative integers, and its
    result reads back as the integer. *)
Lemma biginteger_ok (v : Z) : 0 <= v -> exists b, biginteger v = Ok b.
Proof.
  intros Hv. unfold biginteger.
  destruct (Z.ltb_spec v 0); [lia|].
  destruct (v =? 0); eexists; reflexivity.
Qed.

Lemma biginteger_inv (v : Z) (b : bytes) :
  biginteger v = Ok b -> 0 <= v /\ int_from_bytes b = v.
Proof.
  unfold biginteger.
  destruct (Z.ltb_spec v 0) as [|Hv]; [discriminate|].
  destruct (Z.eqb_spec v 0) as [->|Hne]; intros [= <-].
  - split; [lia|reflexivity].
  - split; [exact Hv|].
    apply int_from_bytes_be_digits_small. split; [lia|].
    apply byte_length_spec; lia.
Qed.

(** pyasn1's encoder fails in one way only. *)
Lemma encode_tlv_err (tag : Tag) (c : bytes) (e : error) :
  encode_tlv tag c = Err e -> e = ENCODE_ERROR.
Proof.
  unfold encode_tlv, encode_length.
  destruct (length c <? 128)%nat; [discriminate|].
  destruct (126 <? _)%nat; [|discriminate]. intros [= <-]. reflexivity.
Qed.

Lemma encode_components_err (vs : list Z) (e : error) :
  encode_components vs = Err e -> e = ENCODE_ERROR.
Proof.
  induction vs as [|v vs IH]; cbn [encode_components]; [discriminate|].
  destruct (encode_integer v) as [c|e'] eqn:Ec.
  - run_bind. destruct (encode_components vs) as [cs|e'']; [discriminate|].
    run_bind. intros [= <-]. apply IH. reflexivity.
  - run_bind. intros [= <-]. apply (encode_tlv_err _ _ _ Ec).
Qed.

Lemma encode_sequence_err (vs : list Z) (e : error) :
  encode_sequence vs = Err e -> e = ENCODE_ERROR.
Proof.
  unfold encode_sequence.
  destruct (encode_components vs) as [cs|e'] eqn:Ec; run_bind.
  - apply encode_tlv_err.
  - intros [= <-]. apply (encode_components_err _ _ Ec).
Qed.

End Schemas.

(** ** The decoder leaves what follows a structure unread *)

Section Trailing.

Import Py DER.

Lemma decode_length_app (s t body : bytes) (n : nat) :
  decode_length s = Ok (n, body) ->
  decode_length (s ++ t) = Ok (n, body ++ t).
Proof.
  destruct s as [|b s]; [discriminate|]. cbn [decode_length app].
  destruct (Z_of_byte b <? 0x80); [intros [= <- <-]; reflexivity|].
  destruct (Z_of_byte b =? 0x80); [discriminate|].
  set (size := Z.to_nat (Z_of_byte b - 0x80)).
  destruct (Nat.ltb_spec (length s) size) as [|Hs]; [discriminate|].
  intros [= <- <-]. rewrite length_app.
  destruct (Nat.ltb_spec (length s + length t) size) as [|_]; [lia|].
  rewrite take_app_le, drop_app_le by lia. reflexivity.
Qed.

Lemma decode_tag_number_app (s t rest : bytes) (acc id : Z) :
  decode_tag_number acc s = Ok (id, rest) ->
  decode_tag_number acc (s ++ t) = Ok (id, rest ++ t).
Proof.
  revert acc. induction s as [|b s IH]; intros acc; [discriminate|].
  cbn [decode_tag_number app].
  destruct (Z.land (Z_of_byte b) 0x80 =? 0).
  - intros [= <- <-]. reflexivity.
  - apply IH.
Qed.

Lemma decode_tag_app (s t rest : bytes) (tag : Tag) :
  decode_tag s = Ok (tag, rest) ->
  decode_tag (s ++ t) = Ok (tag, rest ++ t).
Proof.
  destruct s as [|b s]; [discriminate|]. cbn [decode_tag app].
  destruct (Z.land (Z_of_byte b) 0x1F =? 0x1F).
  - destruct (decode_tag_number 0 s) as [[id s'']|e] eqn:En; [|discriminate].
    rewrite (decode_tag_number_app _ t _ _ _ En). run_bind.
    intros [= <- <-]. reflexivity.
  - intros [= <- <-]. reflexivity.
Qed.

Lemma decode_tlv_app (tag : Tag) (s t c rest : bytes) :
  decode_tlv tag s = Ok (c, rest) ->
  decode_tlv tag (s ++ t) = Ok (c, rest ++ t).
Proof.
  unfold decode_tlv.
  destruct (decode_tag s) as [[tg s']|e] eqn:Et; [|discriminate].
  rewrite (decode_tag_app _ t _ _ Et). run_bind.
  destruct (decode_length s') as [[n body]|e] eqn:El; [|discriminate].
  rewrite (decode_length_app _ t _ _ El). run_bind.
  destruct (Nat.ltb_spec (length body) n) as [|Hn]; [discriminate|].
  rewrite length_app.
  destruct (Nat.ltb_spec (length body + length t) n) as [|_]; [lia|].
  destruct (_ && _); [|discriminate].
  intros [= <- <-].
  rewrite take_app_le, drop_app_le by lia. reflexivity.
Qed.

Lemma decode_integer_app (s t rest : bytes) (v : Z) :
  decode_integer s = Ok (v, rest) ->
  decode_integer (s ++ t) = Ok (v, rest ++ t).
Proof.
  unfold decode_integer.
  destruct (decode_tlv TAG_INTEGER s) as [[c rest']|e] eqn:Et; [|discriminate].
  rewrite (decode_tlv_app _ _ t _ _ Et). run_bind.
  intros [= <- <-]. reflexivity.
Qed.

Lemma decode_sequence_app (n : nat) (s t rest : bytes) (vs : list Z) :
  decode_sequence n s = Ok (vs, rest) ->
  decode_sequence n (s ++ t) = Ok (vs, rest ++ t).
Proof.
  unfold decode_sequence.
  destruct (decode_tlv TAG_SEQUENCE s) as [[c rest']|e] eqn:Et; [|discriminate].
  rewrite (decode_tlv_app _ _ t _ _ Et). run_bind.
  destruct (decode_components n c) as [vs'|e]; [|discriminate]. run_bind.
  intros [= <- <-]. reflexivity.
Qed.

Lemma decode_Dss_Parms_app (s t rest : bytes) (a : Dss_Parms) :
  decode_Dss_Parms s = Ok (a, rest) ->
  decode_Dss_Parms (s ++ t) = Ok (a, rest ++ t).
Proof.
  unfold decode_Dss_Parms.
  destruct (decode_sequence 3 s) as [[vs rest']|e] eqn:Es; [|discriminate].
  rewrite (decode_sequence_app _ _ t _ _ Es). run_bind.
  destruct vs as [|vp [|vq [|vg [|]]]]; try discriminate.
  intros [= <- <-]. reflexivity.
Qed.

Lemma decode_Dss_Sig_Value_app (s t rest : bytes) (a : Dss_Sig_Value) :
  decode_Dss_Sig_Value s = Ok (a, rest) ->
  decode_Dss_Sig_Value (s ++ t) = Ok (a, rest ++ t).
Proof.
  unfold decode_Dss_Sig_Value.
  destruct (decode_sequence 2 s) as [[vs rest']|e] eqn:Es; [|discriminate].
  rewrite (decode_sequence_app _ _ t _ _ Es). run_bind.
  destruct vs as [|vr [|vs' [|]]]; try discriminate.
  intros [= <- <-]. reflexivity.
Qed.

End Trailing.

(** * The claims *)

(** ** Signatures *)

(** How [decode_dsa_signature] continues once pyasn1 has decoded the
    structure. *)
Lemma decode_dsa_signature_eq (der rest : bytes) (a : DER.Dss_Sig_Value) :
  DER.decode_Dss_Sig_Value der = Ok (a, rest) ->
  decode_dsa_signature der =
    (rb ← Py.int_to_bytes (DER.r a) 20;
     sb ← Py.int_to_bytes (DER.s a) 20;
     Ok (rb ++ sb)).
Proof. intros H. unfold decode_dsa_signature. rewrite H. reflexivity. Qed.

Lemma encode_dsa_signature_ok (sig : bytes) :
  is_bytes sig ->
  exists der,
    encode_dsa_signature sig = Ok der
    /\ DER.decode_Dss_Sig_Value der =
         Ok ({| DER.r := Py.int_from_bytes (take (length sig / 2) sig);
                DER.s := Py.int_from_bytes (drop (length sig / 2) sig) |}, []).
Proof.
  intros Hb. unfold is_bytes, PY_SSIZE_T_MAX in Hb. unfold encode_dsa_signature.
  set (part := (length sig / 2)%nat).
  set (a := {| DER.r := _; DER.s := _ |}).
  assert (Hfit : forall l : bytes, (length l <= length sig)%nat ->
            0 <= Py.int_from_bytes l < 256 ^ Z.of_nat (length sig)).
  { intros l Hl. pose proof (int_from_bytes_range l) as [H0 H1].
    split; [exact H0|]. eapply Z.lt_le_trans; [exact H1|].
    apply Z.pow_le_mono_r; lia. }
  assert (Hr : 0 <= DER.r a < 256 ^ Z.of_nat (length sig))
    by (apply Hfit; rewrite length_take; lia).
  assert (Hs : 0 <= DER.s a < 256 ^ Z.of_nat (length sig))
    by (apply Hfit; rewrite length_drop; lia).
  destruct (encode_sequence_ok [DER.r a; DER.s a] (length sig)) as [der Hder].
  { constructor; [exact Hr|]. constructor; [exact Hs|]. constructor. }
  { lia. }
  { cbn; lia. }
  exists der. split; [exact Hder|].
  rewrite <- (app_nil_r der).
  apply decode_Dss_Sig_Value_encode; [lia|lia|exact Hder].
Qed.

(** C1: for every 40-byte signature buffer [sig],
    [decode_dsa_signature(encode_dsa_signature(sig)) == sig]; both halves
    are 20 bytes long, so r and s are below 2^160. *)
Theorem signature_round_trip (sig : bytes) :
  length sig = 40%nat ->
  (der ← encode_dsa_signature sig; decode_dsa_signature der) = Ok sig
  /\ 0 <= Py.int_from_bytes (take 20 sig) < 2 ^ 160
  /\ 0 <= Py.int_from_bytes (drop 20 sig) < 2 ^ 160.
Proof.
  intros Hlen.
  assert (Ht : length (take 20 sig) = 20%nat) by (rewrite length_take; lia).
  assert (Hd : length (drop 20 sig) = 20%nat) by (rewrite length_drop; lia).
  split.
  - destruct (encode_dsa_signature_ok sig) as (der & -> & Hdec).
    { unfold is_bytes, PY_SSIZE_T_MAX. rewrite Hlen. lia. }
    run_bind. rewrite (decode_dsa_signature_eq _ _ _ Hdec).
    rewrite Hlen. change (40 / 2)%nat with 20%nat. cbn [DER.r DER.s].
    pose proof (int_to_bytes_from_bytes (take 20 sig)) as Hrb.
    pose proof (int_to_bytes_from_bytes (drop 20 sig)) as Hsb.
    rewrite Ht in Hrb. rewrite Hd in Hsb. rewrite Hrb. run_bind.
    rewrite Hsb. run_bind. rewrite take_drop. reflexivity.
  - pose proof (int_from_bytes_range (take 20 sig)) as Hr.
    pose proof (int_from_bytes_range (drop 20 sig)) as Hs.
    rewrite Ht in Hr. rewrite Hd in Hs. rewrite pow_256_20 in Hr, Hs. auto.
Qed.

Lemma signature_round_trip_witness :
  (der ← encode_dsa_signature (repeat xa5 40); decode_dsa_signature der)
    = Ok (repeat xa5 40)
  /\ 0 <= Py.int_from_bytes (take 20 (repeat xa5 40)) < 2 ^ 160
  /\ 0 <= Py.int_from_bytes (drop 20 (repeat xa5 40)) < 2 ^ 160.
Proof. apply (signature_round_trip (repeat xa5 40)). reflexivity. Defined.

(** C7: [decode_dsa_signature] applied to the DER encoding of
    Dss-Sig-Value{r=1, s=1} returns exactly 40 bytes: 19 zero bytes followed
    by 0x01, twice. *)
Theorem decode_signature_one_one :
  exists der,
    DER.encode_Dss_Sig_Value {| DER.r := 1; DER.s := 1 |} = Ok der
    /\ der = [x30; x06; x02; x01; x01; x02; x01; x01]
    /\ decode_dsa_signature der
         = Ok ((repeat x00 19 ++ [x01]) ++ (repeat x00 19 ++ [x01]))
    /\ length ((repeat x00 19 ++ [x01]) ++ (repeat x00 19 ++ [x01])) = 40%nat.
Proof.
  eexists. split; [vm_compute; reflexivity|].
  split; [reflexivity|]. split; vm_compute; reflexivity.
Qed.

(** C3: on a DER input that decodes as a Dss-Sig-Value, a component r or s
    of 2^160 or more makes [decode_dsa_signature] fail with OVERFLOW; when
    both components fit in 20 bytes the result is exactly 40 bytes, each
    component big-endian and left-padded with zero bytes to 20 bytes. *)
Theorem decode_signature_overflow (der rest : bytes) (a : DER.Dss_Sig_Value) :
  DER.decode_Dss_Sig_Value der = Ok (a, rest) ->
  (2 ^ 160 <= DER.r a \/ 2 ^ 160 <= DER.s a ->
     decode_dsa_signature der = Err OVERFLOW)
  /\ (0 <= DER.r a < 2 ^ 160 -> 0 <= DER.s a < 2 ^ 160 ->
      exists rb sb,
        decode_dsa_signature der = Ok (rb ++ sb)
        /\ length (rb ++ sb) = 40%nat
        /\ length rb = 20%nat /\ length sb = 20%nat
        /\ Py.int_from_bytes rb = DER.r a /\ Py.int_from_bytes sb = DER.s a
        /\ rb = repeat x00 (20 - Py.byte_length (DER.r a))
                  ++ Py.be_digits (Py.byte_length (DER.r a)) (DER.r a)
        /\ sb = repeat x00 (20 - Py.byte_length (DER.s a))
                  ++ Py.be_digits (Py.byte_length (DER.s a)) (DER.s a)).
Proof.
  intros Hdec. rewrite (decode_dsa_signature_eq _ _ _ Hdec).
  rewrite <- pow_256_20. split.
  - intros [Hr|Hs].
    + rewrite (int_to_bytes_overflow (DER.r a) 20) by (right; exact Hr). reflexivity.
    + destruct (Py.int_to_bytes (DER.r a) 20) as [rb|e] eqn:Er.
      * run_bind. rewrite (int_to_bytes_overflow (DER.s a) 20) by (right; exact Hs). reflexivity.
      * unfold Py.int_to_bytes in Er.
        destruct (DER.r a <? 0); [injection Er as <-; reflexivity|].
        destruct (256 ^ Z.of_nat 20 <=? DER.r a); [|discriminate].
        injection Er as <-. reflexivity.
  - intros Hr Hs.
    assert (Hpad : forall v, 0 <= v < 256 ^ Z.of_nat 20 ->
              Py.be_digits 20 v = repeat x00 (20 - Py.byte_length v)
                                    ++ Py.be_digits (Py.byte_length v) v).
    { intros v Hv. pose proof (byte_length_le v 20 Hv) as Hle.
      rewrite <- be_digits_pad
        by (split; [lia | apply byte_length_spec; lia]).
      f_equal. lia. }
    exists (Py.be_digits 20 (DER.r a)), (Py.be_digits 20 (DER.s a)).
    rewrite (int_to_bytes_ok (DER.r a) 20), (int_to_bytes_ok (DER.s a) 20) by assumption.
    run_bind.
    rewrite length_app, !be_digits_length.
    rewrite !int_from_bytes_be_digits_small by assumption.
    rewrite <- !Hpad by assumption. repeat split; reflexivity.
Qed.

Lemma decode_signature_overflow_witness :
  decode_dsa_signature
    ([x30; x1a; x02; x15; x01] ++ repeat x00 20 ++ [x02; x01; x01])
  = Err OVERFLOW.
Proof.
  refine (proj1 (decode_signature_overflow
                   ([x30; x1a; x02; x15; x01] ++ repeat x00 20 ++ [x02; x01; x01])
                   [] {| DER.r := 2 ^ 160; DER.s := 1 |} _) _).
  - vm_compute. reflexivity.
  - left. cbn [DER.r]. lia.
Defined.

(** C10: on a DER input that decodes as a Dss-Sig-Value with a negative r
    or s, [decode_dsa_signature] fails ([int.to_bytes] refuses a negative
    integer); every successful result is the 20-byte encodings of two
    non-negative integers. *)
Theorem decode_signature_negative :
  (forall (der rest : bytes) (a : DER.Dss_Sig_Value),
     DER.decode_Dss_Sig_Value der = Ok (a, rest) ->
     DER.r a < 0 \/ DER.s a < 0 ->
     decode_dsa_signature der = Err OVERFLOW)
  /\ (forall (der out : bytes),
        decode_dsa_signature der = Ok out ->
        exists (a : DER.Dss_Sig_Value) (rest : bytes),
          DER.decode_Dss_Sig_Value der = Ok (a, rest)
          /\ 0 <= DER.r a /\ 0 <= DER.s a
          /\ out = Py.be_digits 20 (DER.r a) ++ Py.be_digits 20 (DER.s a)
          /\ Py.int_from_bytes (take 20 out) = DER.r a
          /\ Py.int_from_bytes (drop 20 out) = DER.s a).
Proof.
  split.
  - intros der rest a Hdec Hneg. rewrite (decode_dsa_signature_eq _ _ _ Hdec).
    destruct Hneg as [Hr|Hs].
    + rewrite (int_to_bytes_overflow (DER.r a) 20) by (left; exact Hr). reflexivity.
    + destruct (Py.int_to_bytes (DER.r a) 20) as [rb|e] eqn:Er.
      * run_bind. rewrite (int_to_bytes_overflow (DER.s a) 20) by (left; exact Hs). reflexivity.
      * unfold Py.int_to_bytes in Er.
        destruct (DER.r a <? 0); [injection Er as <-; reflexivity|].
        destruct (256 ^ Z.of_nat 20 <=? DER.r a); [|discriminate].
        injection Er as <-. reflexivity.
  - intros der out Hout.
    destruct (DER.decode_Dss_Sig_Value der) as [[a rest]|e] eqn:Hdec.
    + rewrite (decode_dsa_signature_eq _ _ _ Hdec) in Hout.
      destruct (Py.int_to_bytes (DER.r a) 20) as [rb|e] eqn:Er; [|discriminate].
      destruct (Py.int_to_bytes (DER.s a) 20) as [sb|e] eqn:Es; [|discriminate].
      injection Hout as <-.
      apply int_to_bytes_inv in Er as [Hr ->], Es as [Hs ->].
      exists a, rest. split; [reflexivity|].
      split; [lia|]. split; [lia|]. split; [reflexivity|].
      rewrite take_app_length', drop_app_length'
        by (rewrite be_digits_length; reflexivity).
      rewrite !int_from_bytes_be_digits_small by assumption. auto.
    + unfold decode_dsa_signature in Hout. rewrite Hdec in Hout. discriminate.
Qed.

Lemma decode_signature_negative_witness :
  decode_dsa_signature [x30; x06; x02; x01; xff; x02; x01; x01] = Err OVERFLOW.
Proof.
  refine (proj1 decode_signature_negative
            [x30; x06; x02; x01; xff; x02; x01; x01] []
            {| DER.r := -1; DER.s := 1 |} _ _).
  - vm_compute. reflexivity.
  - left. cbn [DER.r]. lia.
Defined.

(** C2 (as stated, refuted): a 39-byte buffer is encoded, not refused. *)
Lemma encode_signature_odd_accepted :
  length (repeat x01 39) = 39%nat
  /\ Nat.Odd (length (repeat x01 39))
  /\ encode_dsa_signature (repeat x01 39)
       = Ok ([x30; x2b; x02; x13] ++ repeat x01 19 ++ [x02; x14] ++ repeat x01 20)
  /\ encode_dsa_signature (repeat x01 39) <> Err INVALID_INPUT.
Proof.
  split; [reflexivity|]. split; [exists 19%nat; reflexivity|].
  split; [vm_compute; reflexivity | vm_compute; discriminate].
Qed.

(** C2 (amended): [encode_dsa_signature] does not fail on a buffer of odd
    length n: it reads the first n // 2 bytes as r and the remaining
    n // 2 + 1 bytes as s, and returns the DER Dss-Sig-Value of these two
    integers. *)
Theorem encode_signature_odd (sig : bytes) :
  is_bytes sig ->
  Nat.Odd (length sig) ->
  let part := (length sig / 2)%nat in
  exists der,
    encode_dsa_signature sig = Ok der
    /\ DER.decode_Dss_Sig_Value der =
         Ok ({| DER.r := Py.int_from_bytes (take part sig);
                DER.s := Py.int_from_bytes (drop part sig) |}, [])
    /\ length (take part sig) = part
    /\ length (drop part sig) = S part.
Proof.
  intros Hb [m Hm] part.
  destruct (encode_dsa_signature_ok sig Hb) as (der & Henc & Hdec).
  exists der. split; [exact Henc|]. split; [exact Hdec|].
  pose proof (Nat.div_mod_eq (length sig) 2) as Hdiv.
  pose proof (Nat.mod_upper_bound (length sig) 2 ltac:(lia)) as Hmod.
  fold part in Hdiv. rewrite length_take, length_drop. lia.
Qed.

Lemma encode_signature_odd_witness :
  exists der,
    encode_dsa_signature (repeat x01 39) = Ok der
    /\ DER.decode_Dss_Sig_Value der =
         Ok ({| DER.r := Py.int_from_bytes (take 19 (repeat x01 39));
                DER.s := Py.int_from_bytes (drop 19 (repeat x01 39)) |}, [])
    /\ length (take 19 (repeat x01 39)) = 19%nat
    /\ length (drop 19 (repeat x01 39)) = 20%nat.
Proof.
  apply (encode_signature_odd (repeat x01 39)).
  - unfold is_bytes, PY_SSIZE_T_MAX. cbn [length repeat]. lia.
  - exists 19%nat. reflexivity.
Defined.

(** ** Attribute maps *)

Lemma getitem_Some (obj : gmap Attribute bytes) (k : Attribute) (b : bytes) :
  obj !! k = Some b -> getitem obj k = Ok b.
Proof. intros H. unfold getitem. rewrite H. reflexivity. Qed.

Lemma biginteger_err (v : Z) (e : error) :
  biginteger v = Err e -> e = INVALID_INPUT.
Proof.
  unfold biginteger. destruct (v <? 0); [congruence|].
  destruct (v =? 0); discriminate.
Qed.

Lemma int_to_bytes_err (v : Z) (n : nat) (e : error) :
  Py.int_to_bytes v n = Err e -> e = OVERFLOW.
Proof.
  unfold Py.int_to_bytes. destruct (v <? 0); [congruence|].
  destruct (256 ^ Z.of_nat n <=? v); [congruence|discriminate].
Qed.

Lemma is_bytes_fit (b : bytes) :
  is_bytes b ->
  0 <= Py.int_from_bytes b < 256 ^ Z.of_nat (Z.to_nat PY_SSIZE_T_MAX).
Proof.
  unfold is_bytes. intros Hb. pose proof (int_from_bytes_range b) as [H0 H1].
  split; [exact H0|]. eapply Z.lt_le_trans; [exact H1|].
  apply Z.pow_le_mono_r; [lia|]. unfold PY_SSIZE_T_MAX in *. lia.
Qed.

(** Encoding the three buffers of a map and decoding the result gives the
    helper's encodings of their values, under the keys BASE, PRIME and
    SUBPRIME. *)
Lemma domain_parameters_encode_decode
    (M : gmap Attribute bytes) (bg bp bq : bytes) :
  M !! BASE = Some bg -> M !! PRIME = Some bp -> M !! SUBPRIME = Some bq ->
  is_bytes bg -> is_bytes bp -> is_bytes bq ->
  exists der,
    encode_dsa_domain_parameters M = Ok der
    /\ decode_dsa_domain_parameters der =
         (base ← biginteger (Py.int_from_bytes bg);
          prime ← biginteger (Py.int_from_bytes bp);
          subprime ← biginteger (Py.int_from_bytes bq);
          Ok (<[BASE := base]> (<[PRIME := prime]> (<[SUBPRIME := subprime]> ∅)))).
Proof.
  intros HB HP HS Hg Hp Hq. unfold encode_dsa_domain_parameters.
  rewrite (getitem_Some _ _ _ HB), (getitem_Some _ _ _ HP), (getitem_Some _ _ _ HS).
  run_bind.
  apply is_bytes_fit in Hg, Hp, Hq.
  set (a := {| DER.p := _; DER.q := _; DER.g := _ |}).
  destruct (encode_sequence_ok [DER.p a; DER.q a; DER.g a]
              (Z.to_nat PY_SSIZE_T_MAX)) as [der Hder].
  { constructor; [exact Hp|]. constructor; [exact Hq|].
    constructor; [exact Hg|]. constructor. }
  { unfold PY_SSIZE_T_MAX. lia. }
  { cbn; lia. }
  exists der. split; [exact Hder|].
  unfold decode_dsa_domain_parameters. rewrite <- (app_nil_r der).
  rewrite (decode_Dss_Parms_encode a der []); [reflexivity| | | |exact Hder];
    cbn [DER.p DER.q DER.g a]; lia.
Qed.

(** C4: for an attribute map [M] of domain parameters (keys BASE, PRIME,
    SUBPRIME) whose buffers are the minimal big-endian encodings of
    non-negative integers,
    [decode_dsa_domain_parameters(encode_dsa_domain_parameters(M)) == M]. *)
Theorem domain_parameters_round_trip
    (M : gmap Attribute bytes) (g p q : Z) (bg bp bq : bytes) :
  dom M = {[BASE; PRIME; SUBPRIME]} ->
  M !! BASE = Some bg -> M !! PRIME = Some bp -> M !! SUBPRIME = Some bq ->
  biginteger g = Ok bg -> biginteger p = Ok bp -> biginteger q = Ok bq ->
  is_bytes bg -> is_bytes bp -> is_bytes bq ->
  (der ← encode_dsa_domain_parameters M; decode_dsa_domain_parameters der) = Ok M.
Proof.
  intros Hdom HB HP HS Eg Ep Eq Hg Hp Hq.
  destruct (domain_parameters_encode_decode M bg bp bq HB HP HS Hg Hp Hq)
    as (der & Henc & Hdec).
  rewrite Henc. run_bind. rewrite Hdec.
  destruct (biginteger_inv _ _ Eg) as [_ ->].
  destruct (biginteger_inv _ _ Ep) as [_ ->].
  destruct (biginteger_inv _ _ Eq) as [_ ->].
  rewrite Eg, Ep, Eq. run_bind. f_equal.
  apply map_eq. intros k.
  assert (HV : M !! VALUE = None).
  { apply not_elem_of_dom. rewrite Hdom.
    rewrite !elem_of_union, !elem_of_singleton. intuition discriminate. }
  destruct k.
  - rewrite lookup_insert_eq. congruence.
  - rewrite lookup_insert_ne, lookup_insert_eq by discriminate. congruence.
  - rewrite !lookup_insert_ne, lookup_insert_eq by discriminate. congruence.
  - rewrite !lookup_insert_ne, lookup_empty by discriminate. congruence.
Qed.

Lemma domain_parameters_round_trip_witness :
  (der ← encode_dsa_domain_parameters
           (<[BASE := [x02]]> (<[PRIME := [x01; x00]]> (<[SUBPRIME := [x00]]> ∅)));
   decode_dsa_domain_parameters der)
  = Ok (<[BASE := [x02]]> (<[PRIME := [x01; x00]]> (<[SUBPRIME := [x00]]> ∅))).
Proof.
  apply (domain_parameters_round_trip _ 2 256 0 [x02] [x01; x00] [x00]);
    try reflexivity;
    unfold is_bytes, PY_SSIZE_T_MAX; cbn [length]; lia.
Defined.

(** C5: for every non-negative integer [v] expressible in at most [N]
    bytes, with [b] its minimal big-endian encoding,
    [decode_dsa_public_key(encode_dsa_public_key({VALUE: b})) == b];
    [v = 0] included. *)
Theorem public_key_round_trip (N : nat) (v : Z) :
  Z.of_nat N <= PY_SSIZE_T_MAX ->
  0 <= v < 256 ^ Z.of_nat N ->
  exists b,
    biginteger v = Ok b
    /\ forall key : gmap Attribute bytes,
         key !! VALUE = Some b ->
         (der ← encode_dsa_public_key key; decode_dsa_public_key der) = Ok b.
Proof.
  intros HN Hv. destruct (biginteger_ok v (proj1 Hv)) as [b Hb].
  exists b. split; [exact Hb|]. intros key Hkey.
  destruct (biginteger_inv _ _ Hb) as [_ Hval].
  unfold encode_dsa_public_key. rewrite (getitem_Some _ _ _ Hkey). run_bind.
  rewrite Hval. unfold DER.encode_DSAPublicKey.
  destruct (encode_integer_ok v N Hv) as (e & He & _).
  { unfold PY_SSIZE_T_MAX in HN. lia. }
  rewrite He. run_bind.
  unfold decode_dsa_public_key, DER.decode_DSAPublicKey.
  rewrite <- (app_nil_r e).
  rewrite (decode_integer_encode v e [] (proj1 Hv) He). exact Hb.
Qed.

Lemma public_key_round_trip_witness :
  exists b,
    biginteger 0 = Ok b
    /\ forall key : gmap Attribute bytes,
         key !! VALUE = Some b ->
         (der ← encode_dsa_public_key key; decode_dsa_public_key der) = Ok b.
Proof.
  apply (public_key_round_trip 1 0).
  - unfold PY_SSIZE_T_MAX. lia.
  - cbn. lia.
Defined.

(** C6: [encode_dsa_domain_parameters] fails with MISSING_ATTRIBUTE exactly
    when one of BASE, PRIME, SUBPRIME is absent from the map, and
    [encode_dsa_public_key] exactly when VALUE is absent. *)
Theorem missing_attribute_iff :
  (forall obj : gmap Attribute bytes,
     encode_dsa_domain_parameters obj = Err MISSING_ATTRIBUTE
     <-> (obj !! BASE = None \/ obj !! PRIME = None \/ obj !! SUBPRIME = None))
  /\ (forall key : gmap Attribute bytes,
        encode_dsa_public_key key = Err MISSING_ATTRIBUTE
        <-> key !! VALUE = None).
Proof.
  split.
  - intros obj. unfold encode_dsa_domain_parameters, getitem.
    destruct (obj !! BASE) as [bg|]; run_bind;
      [|split; [auto | reflexivity]].
    destruct (obj !! PRIME) as [bp|]; run_bind;
      [|split; [auto | reflexivity]].
    destruct (obj !! SUBPRIME) as [bq|]; run_bind;
      [|split; [auto | reflexivity]].
    split.
    + intros H. apply encode_sequence_err in H. discriminate.
    + intros [H|[H|H]]; discriminate.
  - intros key. unfold encode_dsa_public_key, getitem.
    destruct (key !! VALUE) as [b|]; run_bind; [|split; reflexivity].
    split; [|discriminate].
    intros H. apply encode_tlv_err in H. discriminate.
Qed.

Lemma missing_attribute_iff_witness :
  encode_dsa_domain_parameters (<[BASE := [x02]]> (<[SUBPRIME := [x03]]> ∅))
    = Err MISSING_ATTRIBUTE
  /\ encode_dsa_public_key (<[BASE := [x02]]> ∅) = Err MISSING_ATTRIBUTE.
Proof.
  split.
  - apply (proj1 missing_attribute_iff). right. left. reflexivity.
  - apply (proj2 missing_attribute_iff). reflexivity.
Defined.

(** C8: a VALUE buffer whose integer is 0 is encoded by
    [encode_dsa_public_key] as the DER INTEGER 0x02 0x01 0x00, whose content
    is the single octet 0x00; an empty buffer under any attribute is read as
    the integer zero, like the buffer holding one zero byte. *)
Theorem public_key_zero :
  (forall (key : gmap Attribute bytes) (b : bytes),
     key !! VALUE = Some b -> Py.int_from_bytes b = 0 ->
     encode_dsa_public_key key = Ok [x02; x01; x00])
  /\ DER.integer_octets 0 = [x00]
  /\ Py.int_from_bytes [] = 0
  /\ (forall key : gmap Attribute bytes,
        encode_dsa_public_key (<[VALUE := []]> key) = Ok [x02; x01; x00])
  /\ (forall (a : Attribute) (obj : gmap Attribute bytes),
        encode_dsa_domain_parameters (<[a := []]> obj)
        = encode_dsa_domain_parameters (<[a := [x00]]> obj)).
Proof.
  assert (Hzero : forall (key : gmap Attribute bytes) (b : bytes),
            key !! VALUE = Some b -> Py.int_from_bytes b = 0 ->
            encode_dsa_public_key key = Ok [x02; x01; x00]).
  { intros key b Hkey Hb. unfold encode_dsa_public_key.
    rewrite (getitem_Some _ _ _ Hkey). run_bind. rewrite Hb. reflexivity. }
  split; [exact Hzero|]. split; [reflexivity|]. split; [reflexivity|]. split.
  - intros key. apply (Hzero _ []); [apply lookup_insert_eq | reflexivity].
  - intros a obj. unfold encode_dsa_domain_parameters, getitem.
    destruct a.
    + rewrite !lookup_insert_eq, !lookup_insert_ne by discriminate. reflexivity.
    + rewrite !lookup_insert_eq, !lookup_insert_ne by discriminate.
      destruct (obj !! BASE); reflexivity.
    + rewrite !lookup_insert_eq, !lookup_insert_ne by discriminate.
      destruct (obj !! BASE); [|reflexivity].
      destruct (obj !! PRIME); reflexivity.
    + rewrite !lookup_insert_ne by discriminate. reflexivity.
Qed.

Lemma public_key_zero_witness :
  encode_dsa_public_key (<[VALUE := [x00; x00; x00]]> ∅) = Ok [x02; x01; x00].
Proof.
  apply (proj1 public_key_zero _ [x00; x00; x00]); reflexivity.
Defined.

(** ** Trailing bytes *)

(** C9: once the DER decoder accepts a buffer [d], each of the three
    decoders gives on [d ++ t] the result it gives on [d], for every suffix
    [t]: the remainder returned by the DER decoder is dropped, and the
    trailing bytes cause no DECODE_ERROR. *)
Theorem trailing_bytes_ignored :
  (forall (d t rest : bytes) (a : DER.Dss_Parms),
     DER.decode_Dss_Parms d = Ok (a, rest) ->
     decode_dsa_domain_parameters (d ++ t) = decode_dsa_domain_parameters d
     /\ decode_dsa_domain_parameters (d ++ t) <> Err DECODE_ERROR)
  /\ (forall (d t rest : bytes) (y : Z),
        DER.decode_DSAPublicKey d = Ok (y, rest) ->
        decode_dsa_public_key (d ++ t) = decode_dsa_public_key d
        /\ decode_dsa_public_key (d ++ t) <> Err DECODE_ERROR)
  /\ (forall (d t rest : bytes) (a : DER.Dss_Sig_Value),
        DER.decode_Dss_Sig_Value d = Ok (a, rest) ->
        decode_dsa_signature (d ++ t) = decode_dsa_signature d
        /\ decode_dsa_signature (d ++ t) <> Err DECODE_ERROR).
Proof.
  split; [|split].
  - intros d t rest a Hd. unfold decode_dsa_domain_parameters.
    rewrite (decode_Dss_Parms_app _ t _ _ Hd), Hd. run_bind.
    split; [reflexivity|].
    destruct (biginteger (DER.g a)) as [bg|e] eqn:Eg; run_bind;
      [|apply biginteger_err in Eg; subst e; discriminate].
    destruct (biginteger (DER.p a)) as [bp|e] eqn:Ep; run_bind;
      [|apply biginteger_err in Ep; subst e; discriminate].
    destruct (biginteger (DER.q a)) as [bq|e] eqn:Eq; run_bind;
      [|apply biginteger_err in Eq; subst e; discriminate].
    discriminate.
  - intros d t rest y Hd. unfold decode_dsa_public_key.
    unfold DER.decode_DSAPublicKey in *.
    rewrite (decode_integer_app _ t _ _ Hd), Hd. run_bind.
    split; [reflexivity|].
    destruct (biginteger y) as [b|e] eqn:Ey;
      [|apply biginteger_err in Ey; subst e]; discriminate.
  - intros d t rest a Hd.
    rewrite (decode_dsa_signature_eq _ _ _ (decode_Dss_Sig_Value_app _ t _ _ Hd)).
    rewrite (decode_dsa_signature_eq _ _ _ Hd).
    split; [reflexivity|].
    destruct (Py.int_to_bytes (DER.r a) 20) as [rb|e] eqn:Er; run_bind;
      [|apply int_to_bytes_err in Er; subst e; discriminate].
    destruct (Py.int_to_bytes (DER.s a) 20) as [sb|e] eqn:Es; run_bind;
      [|apply int_to_bytes_err in Es; subst e]; discriminate.
Qed.

Lemma trailing_bytes_ignored_witness :
  decode_dsa_signature ([x30; x06; x02; x01; x01; x02; x01; x01] ++ [xde; xad])
    = decode_dsa_signature [x30; x06; x02; x01; x01; x02; x01; x01]
  /\ decode_dsa_signature ([x30; x06; x02; x01; x01; x02; x01; x01] ++ [xde; xad])
       <> Err DECODE_ERROR.
Proof.
  apply (proj2 (proj2 trailing_bytes_ignored)
           [x30; x06; x02; x01; x01; x02; x01; x01] [xde; xad] []
           {| DER.r := 1; DER.s := 1 |}).
  vm_compute. reflexivity.
Defined.

(** * Further properties of the codecs *)

(** ** The DER decoder fails in one way only *)

Section DecodeErrors.

Import Py DER.

Lemma decode_tag_number_err (s : bytes) (acc : Z) (e : error) :
  decode_tag_number acc s = Err e -> e = DECODE_ERROR.
Proof.
  revert acc. induction s as [|b s IH]; intros acc; cbn [decode_tag_number].
  - congruence.
  - destruct (Z.land (Z_of_byte b) 0x80 =? 0); [discriminate|apply IH].
Qed.

Lemma decode_tag_err (s : bytes) (e : error) :
  decode_tag s = Err e -> e = DECODE_ERROR.
Proof.
  destruct s as [|b s]; cbn [decode_tag]; [congruence|].
  destruct (Z.land (Z_of_byte b) 0x1F =? 0x1F); [|discriminate].
  destruct (decode_tag_number 0 s) as [[id s'']|e'] eqn:En; run_bind.
  - discriminate.
  - intros [= <-]. apply (decode_tag_number_err _ _ _ En).
Qed.

Lemma decode_length_err (s : bytes) (e : error) :
  decode_length s = Err e -> e = DECODE_ERROR.
Proof.
  destruct s as [|b s]; cbn [decode_length]; [congruence|].
  destruct (Z_of_byte b <? 0x80); [discriminate|].
  destruct (Z_of_byte b =? 0x80); [congruence|].
  destruct (_ <? _)%nat; [congruence|discriminate].
Qed.

Lemma decode_tlv_err (tag : Tag) (s : bytes) (e : error) :
  decode_tlv tag s = Err e -> e = DECODE_ERROR.
Proof.
  unfold decode_tlv.
  destruct (decode_tag s) as [[t s']|e'] eqn:Et; run_bind;
    [|intros [= <-]; apply (decode_tag_err _ _ Et)].
  destruct (decode_length s') as [[n body]|e'] eqn:El; run_bind;
    [|intros [= <-]; apply (decode_length_err _ _ El)].
  destruct (_ <? _)%nat; [congruence|].
  destruct (_ && _); [discriminate|congruence].
Qed.

Lemma decode_integer_err (s : bytes) (e : error) :
  decode_integer s = Err e -> e = DECODE_ERROR.
Proof.
  unfold decode_integer.
  destruct (decode_tlv TAG_INTEGER s) as [[c rest]|e'] eqn:Et; run_bind.
  - discriminate.
  - intros [= <-]. apply (decode_tlv_err _ _ _ Et).
Qed.

Lemma decode_components_err (n : nat) (head : bytes) (e : error) :
  decode_components n head = Err e -> e = DECODE_ERROR.
Proof.
  revert head. induction n as [|n IH]; intros head; cbn [decode_components].
  - destruct head; [discriminate|congruence].
  - destruct (decode_integer head) as [[v head']|e'] eqn:Ei; run_bind;
      [|intros [= <-]; apply (decode_integer_err _ _ Ei)].
    destruct (decode_components n head') as [vs|e'] eqn:Ec; run_bind;
      [discriminate|].
    intros [= <-]. apply (IH _ Ec).
Qed.

Lemma decode_sequence_err (n : nat) (s : bytes) (e : error) :
  decode_sequence n s = Err e -> e = DECODE_ERROR.
Proof.
  unfold decode_sequence.
  destruct (decode_tlv TAG_SEQUENCE s) as [[c rest]|e'] eqn:Et; run_bind;
    [|intros [= <-]; apply (decode_tlv_err _ _ _ Et)].
  destruct (decode_components n c) as [vs|e'] eqn:Ec; run_bind;
    [discriminate|].
  intros [= <-]. apply (decode_components_err _ _ _ Ec).
Qed.

Lemma decode_Dss_Parms_err (s : bytes) (e : error) :
  decode_Dss_Parms s = Err e -> e = DECODE_ERROR.
Proof.
  unfold decode_Dss_Parms.
  destruct (decode_sequence 3 s) as [[vs rest]|e'] eqn:Es; run_bind;
    [|intros [= <-]; apply (decode_sequence_err _ _ _ Es)].
  destruct vs as [|vp [|vq [|vg [|]]]]; congruence.
Qed.

Lemma decode_Dss_Sig_Value_err (s : bytes) (e : error) :
  decode_Dss_Sig_Value s = Err e -> e = DECODE_ERROR.
Proof.
  unfold decode_Dss_Sig_Value.
  destruct (decode_sequence 2 s) as [[vs rest]|e'] eqn:Es; run_bind;
    [|intros [= <-]; apply (decode_sequence_err _ _ _ Es)].
  destruct vs as [|vr [|vs' [|]]]; congruence.
Qed.

(** A decoder that reads all of [d] reads no proper prefix of [d]: it
    would read the same value from [d] and leave bytes over. *)
Lemma truncated_not_decoded {A : Type}
    (dec : bytes -> result (A * bytes)) (d : bytes) (k : nat) (a : A) :
  (forall s t v rest, dec s = Ok (v, rest) -> dec (s ++ t) = Ok (v, rest ++ t)) ->
  (forall s e, dec s = Err e -> e = DECODE_ERROR) ->
  dec d = Ok (a, []) -> (k < length d)%nat ->
  dec (take k d) = Err DECODE_ERROR.
Proof.
  intros Happ Herr Hd Hk.
  destruct (dec (take k d)) as [[v rest]|e] eqn:Ek.
  - apply (Happ _ (drop k d)) in Ek. rewrite take_drop, Hd in Ek.
    injection Ek as _ Hnil. symmetry in Hnil.
    apply app_eq_nil in Hnil as [_ Hdrop].
    apply (f_equal length) in Hdrop. rewrite length_drop in Hdrop.
    cbn [length] in Hdrop. lia.
  - rewrite (Herr _ _ Ek). reflexivity.
Qed.

End DecodeErrors.

(** X1: a buffer that the DER decoder reads to its last byte is refused
    when cut short: on every proper prefix of it (the empty buffer
    included) each of the three decoders fails with DECODE_ERROR. *)
Theorem truncated_input_rejected :
  (forall (d : bytes) (a : DER.Dss_Parms) (k : nat),
     DER.decode_Dss_Parms d = Ok (a, []) -> (k < length d)%nat ->
     decode_dsa_domain_parameters (take k d) = Err DECODE_ERROR)
  /\ (forall (d : bytes) (y : Z) (k : nat),
        DER.decode_DSAPublicKey d = Ok (y, []) -> (k < length d)%nat ->
        decode_dsa_public_key (take k d) = Err DECODE_ERROR)
  /\ (forall (d : bytes) (a : DER.Dss_Sig_Value) (k : nat),
        DER.decode_Dss_Sig_Value d = Ok (a, []) -> (k < length d)%nat ->
        decode_dsa_signature (take k d) = Err DECODE_ERROR).
Proof.
  split; [|split].
  - intros d a k Hd Hk. unfold decode_dsa_domain_parameters.
    rewrite (truncated_not_decoded DER.decode_Dss_Parms d k a); [reflexivity| | |exact Hd|exact Hk].
    + intros s t v rest. apply decode_Dss_Parms_app.
    + apply decode_Dss_Parms_err.
  - intros d y k Hd Hk. unfold decode_dsa_public_key.
    rewrite (truncated_not_decoded DER.decode_DSAPublicKey d k y); [reflexivity| | |exact Hd|exact Hk].
    + intros s t v rest. apply decode_integer_app.
    + apply decode_integer_err.
  - intros d a k Hd Hk. unfold decode_dsa_signature.
    rewrite (truncated_not_decoded DER.decode_Dss_Sig_Value d k a); [reflexivity| | |exact Hd|exact Hk].
    + intros s t v rest. apply decode_Dss_Sig_Value_app.
    + apply decode_Dss_Sig_Value_err.
Qed.

Lemma truncated_input_rejected_witness :
  decode_dsa_signature (take 7 [x30; x06; x02; x01; x01; x02; x01; x01])
    = Err DECODE_ERROR.
Proof.
  apply (proj2 (proj2 truncated_input_rejected)
           [x30; x06; x02; x01; x01; x02; x01; x01]
           {| DER.r := 1; DER.s := 1 |} 7%nat).
  - vm_compute. reflexivity.
  - cbn [length]. lia.
Defined.

(** ** More on big-endian digits *)

Section BigEndianMore.

Import Py.

Lemma int_from_bytes_cons (b : byte) (l : bytes) :
  int_from_bytes (b :: l)
  = Z_of_byte b * 256 ^ Z.of_nat (length l) + int_from_bytes l.
Proof.
  induction l as [|x l IH] using rev_ind.
  - cbn. lia.
  - rewrite app_comm_cons, !int_from_bytes_snoc, IH, length_app.
    cbn [length].
    replace (Z.of_nat (length l + 1)) with (Z.succ (Z.of_nat (length l))) by lia.
    rewrite Z.pow_succ_r by lia. ring.
Qed.

Lemma int_from_bytes_zeros (k : nat) (l : bytes) :
  int_from_bytes (repeat x00 k ++ l) = int_from_bytes l.
Proof.
  induction k as [|k IH]; [reflexivity|].
  cbn [repeat app]. rewrite int_from_bytes_cons, IH.
  change (Z_of_byte x00) with 0. lia.
Qed.

(** Writing the value of a buffer on more digits pads the buffer on the
    left. *)
Lemma be_digits_from_bytes_pad (k : nat) (l : bytes) :
  be_digits (k + length l) (int_from_bytes l) = repeat x00 k ++ l.
Proof.
  rewrite be_digits_pad by apply int_from_bytes_range.
  rewrite be_digits_int_from_bytes. reflexivity.
Qed.

Lemma int_to_bytes_pad (n : nat) (l : bytes) :
  (length l <= n)%nat ->
  int_to_bytes (int_from_bytes l) n = Ok (repeat x00 (n - length l) ++ l).
Proof.
  intros Hl. pose proof (int_from_bytes_range l) as [H0 H1].
  rewrite int_to_bytes_ok.
  - replace n with ((n - length l) + length l)%nat at 1 by lia.
    rewrite be_digits_from_bytes_pad. reflexivity.
  - split; [exact H0|]. eapply Z.lt_le_trans; [exact H1|].
    apply Z.pow_le_mono_r; lia.
Qed.

(** A buffer whose first byte is not zero holds at least
    [256 ^ (length - 1)]. *)
Lemma int_from_bytes_lower (b : byte) (l : bytes) :
  0 < Z_of_byte b -> 256 ^ Z.of_nat (length l) <= int_from_bytes (b :: l).
Proof.
  intros Hb. rewrite int_from_bytes_cons.
  pose proof (int_from_bytes_range l) as [H0 _].
  assert (0 < 256 ^ Z.of_nat (length l)) by (apply Z.pow_pos_nonneg; lia).
  nia.
Qed.

End BigEndianMore.

(** ** Signatures of other lengths *)

(** X2: for a signature buffer of at most 40 bytes (empty and odd lengths
    included), [decode_dsa_signature(encode_dsa_signature(sig))] is the two
    halves of [sig], each left-padded with zero bytes to 20 bytes; a
    shorter signature is therefore not returned unchanged. *)
Theorem signature_short_padded (sig : bytes) :
  (length sig <= 40)%nat ->
  let part := (length sig / 2)%nat in
  (der ← encode_dsa_signature sig; decode_dsa_signature der)
  = Ok ((repeat x00 (20 - part) ++ take part sig)
          ++ (repeat x00 (20 - (length sig - part)) ++ drop part sig)).
Proof.
  intros Hlen part.
  pose proof (Nat.div_mod_eq (length sig) 2) as Hdiv.
  pose proof (Nat.mod_upper_bound (length sig) 2 ltac:(lia)) as Hmod.
  fold part in Hdiv.
  destruct (encode_dsa_signature_ok sig) as (der & Henc & Hdec).
  { unfold is_bytes, PY_SSIZE_T_MAX. lia. }
  rewrite Henc. run_bind. rewrite (decode_dsa_signature_eq _ _ _ Hdec).
  fold part. cbn [DER.r DER.s].
  assert (Ht : length (take part sig) = part) by (rewrite length_take; lia).
  assert (Hd : length (drop part sig) = (length sig - part)%nat)
    by apply length_drop.
  rewrite (int_to_bytes_pad 20 (take part sig)) by lia. run_bind.
  rewrite (int_to_bytes_pad 20 (drop part sig)) by lia. run_bind.
  rewrite Ht, Hd. reflexivity.
Qed.

Lemma signature_short_padded_witness :
  (der ← encode_dsa_signature [x0a; x0b; x0c]; decode_dsa_signature der)
  = Ok ((repeat x00 19 ++ [x0a]) ++ (repeat x00 18 ++ [x0b; x0c])).
Proof.
  apply (signature_short_padded [x0a; x0b; x0c]). cbn [length]. lia.
Defined.

(** X3: a signature buffer of 42 bytes or more whose first byte is not
    zero does not survive the round trip: its r half needs more than 20
    bytes, and [decode_dsa_signature(encode_dsa_signature(sig))] fails with
    OVERFLOW. *)
Theorem signature_long_overflow (b : byte) (sig : bytes) :
  is_bytes (b :: sig) ->
  (42 <= length (b :: sig))%nat ->
  0 < Z_of_byte b ->
  (der ← encode_dsa_signature (b :: sig); decode_dsa_signature der)
  = Err OVERFLOW.
Proof.
  intros Hb Hlen Hnz.
  pose proof (Nat.div_mod_eq (length (b :: sig)) 2) as Hdiv.
  pose proof (Nat.mod_upper_bound (length (b :: sig)) 2 ltac:(lia)) as Hmod.
  destruct (encode_dsa_signature_ok _ Hb) as (der & Henc & Hdec).
  rewrite Henc. run_bind. rewrite (decode_dsa_signature_eq _ _ _ Hdec).
  cbn [DER.r DER.s].
  destruct (length (b :: sig) / 2)%nat as [|part] eqn:Hpart; [lia|].
  cbn [take]. cbn [length] in *.
  rewrite (int_to_bytes_overflow (Py.int_from_bytes (b :: take part sig)) 20);
    [reflexivity|].
  right.
  eapply Z.le_trans; [|apply (int_from_bytes_lower b (take part sig) Hnz)].
  apply Z.pow_le_mono_r; [lia|]. rewrite length_take. lia.
Qed.

Lemma signature_long_overflow_witness :
  (der ← encode_dsa_signature (x01 :: repeat x00 41); decode_dsa_signature der)
  = Err OVERFLOW.
Proof.
  apply (signature_long_overflow x01 (repeat x00 41)).
  - unfold is_bytes, PY_SSIZE_T_MAX. cbn [length repeat]. lia.
  - cbn [length repeat]. lia.
  - cbn. lia.
Defined.

(** ** Decoding then encoding *)

(** X4: [encode_dsa_signature(decode_dsa_signature(der'))] gives back the
    DER encoding [der] of a Dss-Sig-Value with components in [0, 2^160),
    for [der'] equal to [der] or to [der] followed by any bytes. *)
Theorem signature_decode_encode (a : DER.Dss_Sig_Value) (der t : bytes) :
  0 <= DER.r a < 2 ^ 160 -> 0 <= DER.s a < 2 ^ 160 ->
  DER.encode_Dss_Sig_Value a = Ok der ->
  (out ← decode_dsa_signature (der ++ t); encode_dsa_signature out) = Ok der.
Proof.
  intros Hr Hs Henc. rewrite <- pow_256_20 in Hr, Hs.
  pose proof (decode_Dss_Sig_Value_encode a der t (proj1 Hr) (proj1 Hs) Henc) as Hdec.
  rewrite (decode_dsa_signature_eq _ _ _ Hdec).
  rewrite (int_to_bytes_ok (DER.r a) 20), (int_to_bytes_ok (DER.s a) 20) by assumption.
  run_bind. unfold encode_dsa_signature.
  rewrite length_app, !be_digits_length. change ((20 + 20) / 2)%nat with 20%nat.
  rewrite take_app_length', drop_app_length'
    by (rewrite be_digits_length; reflexivity).
  rewrite !int_from_bytes_be_digits_small by assumption.
  rewrite <- Henc. destruct a; reflexivity.
Qed.

Lemma signature_decode_encode_witness :
  (out ← decode_dsa_signature
           ([x30; x06; x02; x01; x01; x02; x01; x01] ++ [xde; xad]);
   encode_dsa_signature out)
  = Ok [x30; x06; x02; x01; x01; x02; x01; x01].
Proof.
  apply (signature_decode_encode {| DER.r := 1; DER.s := 1 |}).
  - cbn [DER.r]. lia.
  - cbn [DER.s]. lia.
  - vm_compute. reflexivity.
Defined.

(** X5: [encode_dsa_public_key({VALUE: decode_dsa_public_key(der')})] gives
    back the DER encoding [der] of a non-negative DSAPublicKey, for [der']
    equal to [der] or to [der] followed by any bytes. *)
Theorem public_key_decode_encode (y : Z) (der t : bytes) :
  0 <= y ->
  DER.encode_DSAPublicKey y = Ok der ->
  (b ← decode_dsa_public_key (der ++ t);
   encode_dsa_public_key (<[VALUE := b]> ∅)) = Ok der.
Proof.
  intros Hy Henc. unfold decode_dsa_public_key, DER.decode_DSAPublicKey.
  rewrite (decode_integer_encode y der t Hy Henc). run_bind.
  destruct (biginteger_ok y Hy) as [b Hb]. rewrite Hb. run_bind.
  destruct (biginteger_inv _ _ Hb) as [_ Hval].
  unfold encode_dsa_public_key, getitem. rewrite lookup_insert_eq. run_bind.
  rewrite Hval. exact Henc.
Qed.

Lemma public_key_decode_encode_witness :
  (b ← decode_dsa_public_key ([x02; x02; x00; xff] ++ [x07]);
   encode_dsa_public_key (<[VALUE := b]> ∅)) = Ok [x02; x02; x00; xff].
Proof.
  apply (public_key_decode_encode 255).
  - lia.
  - vm_compute. reflexivity.
Defined.

(** X6: [encode_dsa_domain_parameters(decode_dsa_domain_parameters(der'))]
    gives back the DER encoding [der] of a Dss-Parms with non-negative p, q
    and g, for [der'] equal to [der] or to [der] followed by any bytes. *)
Theorem domain_parameters_decode_encode (a : DER.Dss_Parms) (der t : bytes) :
  0 <= DER.p a -> 0 <= DER.q a -> 0 <= DER.g a ->
  DER.encode_Dss_Parms a = Ok der ->
  (M ← decode_dsa_domain_parameters (der ++ t);
   encode_dsa_domain_parameters M) = Ok der.
Proof.
  intros Hp Hq Hg Henc. unfold decode_dsa_domain_parameters.
  rewrite (decode_Dss_Parms_encode a der t Hp Hq Hg Henc). run_bind.
  destruct (biginteger_ok _ Hg) as [bg Ebg].
  destruct (biginteger_ok _ Hp) as [bp Ebp].
  destruct (biginteger_ok _ Hq) as [bq Ebq].
  rewrite Ebg, Ebp, Ebq. run_bind.
  set (M := <[BASE := bg]> (<[PRIME := bp]> (<[SUBPRIME := bq]> ∅))).
  assert (HB : M !! BASE = Some bg) by apply lookup_insert_eq.
  assert (HP : M !! PRIME = Some bp).
  { unfold M. rewrite lookup_insert_ne by discriminate. apply lookup_insert_eq. }
  assert (HS : M !! SUBPRIME = Some bq).
  { unfold M. rewrite !lookup_insert_ne by discriminate. apply lookup_insert_eq. }
  unfold encode_dsa_domain_parameters.
  rewrite (getitem_Some _ _ _ HB), (getitem_Some _ _ _ HP), (getitem_Some _ _ _ HS).
  run_bind.
  destruct (biginteger_inv _ _ Ebg) as [_ ->].
  destruct (biginteger_inv _ _ Ebp) as [_ ->].
  destruct (biginteger_inv _ _ Ebq) as [_ ->].
  rewrite <- Henc. destruct a; reflexivity.
Qed.

Lemma domain_parameters_decode_encode_witness :
  (M ← decode_dsa_domain_parameters
         ([x30; x0a; x02; x02; x00; x80; x02; x01; x07; x02; x01; x00] ++ [xff]);
   encode_dsa_domain_parameters M)
  = Ok [x30; x0a; x02; x02; x00; x80; x02; x01; x07; x02; x01; x00].
Proof.
  apply (domain_parameters_decode_encode {| DER.p := 128; DER.q := 7; DER.g := 0 |}).
  - cbn [DER.p]. lia.
  - cbn [DER.q]. lia.
  - cbn [DER.g]. lia.
  - vm_compute. reflexivity.
Defined.

(** ** What the encoders write *)

(** X7: on Python byte buffers the three encoders do not fail, and their
    output is one DER structure with nothing after it: the DSAPublicKey is
    the integer of VALUE, the Dss-Parms has p from PRIME, q from SUBPRIME
    and g from BASE, the Dss-Sig-Value has r and s from the two halves. *)
Theorem encoders_output :
  (forall (key : gmap Attribute bytes) (b : bytes),
     key !! VALUE = Some b -> is_bytes b ->
     exists der,
       encode_dsa_public_key key = Ok der
       /\ DER.decode_DSAPublicKey der = Ok (Py.int_from_bytes b, []))
  /\ (forall (obj : gmap Attribute bytes) (bg bp bq : bytes),
        obj !! BASE = Some bg -> obj !! PRIME = Some bp ->
        obj !! SUBPRIME = Some bq ->
        is_bytes bg -> is_bytes bp -> is_bytes bq ->
        exists der,
          encode_dsa_domain_parameters obj = Ok der
          /\ DER.decode_Dss_Parms der =
               Ok ({| DER.p := Py.int_from_bytes bp;
                      DER.q := Py.int_from_bytes bq;
                      DER.g := Py.int_from_bytes bg |}, []))
  /\ (forall sig : bytes,
        is_bytes sig ->
        exists der,
          encode_dsa_signature sig = Ok der
          /\ DER.decode_Dss_Sig_Value der =
               Ok ({| DER.r := Py.int_from_bytes (take (length sig / 2) sig);
                      DER.s := Py.int_from_bytes (drop (length sig / 2) sig) |}, [])).
Proof.
  split; [|split].
  - intros key b Hkey Hb. apply is_bytes_fit in Hb.
    destruct (encode_integer_ok _ _ Hb) as (der & Hder & _).
    { unfold PY_SSIZE_T_MAX. lia. }
    exists der. unfold encode_dsa_public_key.
    rewrite (getitem_Some _ _ _ Hkey). run_bind.
    split; [exact Hder|]. unfold DER.decode_DSAPublicKey.
    rewrite <- (app_nil_r der).
    apply decode_integer_encode; [lia|exact Hder].
  - intros obj bg bp bq HB HP HS Hg Hp Hq.
    unfold encode_dsa_domain_parameters.
    rewrite (getitem_Some _ _ _ HB), (getitem_Some _ _ _ HP), (getitem_Some _ _ _ HS).
    run_bind. apply is_bytes_fit in Hg, Hp, Hq.
    set (a := {| DER.p := _; DER.q := _; DER.g := _ |}).
    destruct (encode_sequence_ok [DER.p a; DER.q a; DER.g a]
                (Z.to_nat PY_SSIZE_T_MAX)) as [der Hder].
    { constructor; [exact Hp|]. constructor; [exact Hq|].
      constructor; [exact Hg|]. constructor. }
    { unfold PY_SSIZE_T_MAX. lia. }
    { cbn; lia. }
    exists der. split; [exact Hder|]. rewrite <- (app_nil_r der).
    apply decode_Dss_Parms_encode; [| | |exact Hder]; cbn [DER.p DER.q DER.g a]; lia.
  - apply encode_dsa_signature_ok.
Qed.

Lemma encoders_output_witness :
  exists der,
    encode_dsa_public_key (<[VALUE := [x01; x00]]> ∅) = Ok der
    /\ DER.decode_DSAPublicKey der = Ok (Py.int_from_bytes [x01; x00], []).
Proof.
  apply (proj1 encoders_output (<[VALUE := [x01; x00]]> ∅) [x01; x00]).
  - reflexivity.
  - unfold is_bytes, PY_SSIZE_T_MAX. cbn [length]. lia.
Defined.

(** X8: the attribute encoders read a buffer as an integer, so zero bytes
    in front of a buffer do not change their output. *)
Theorem leading_zeros_ignored :
  (forall (k : nat) (b : bytes) (key : gmap Attribute bytes),
     encode_dsa_public_key (<[VALUE := repeat x00 k ++ b]> key)
     = encode_dsa_public_key (<[VALUE := b]> key))
  /\ (forall (a : Attribute) (k : nat) (b : bytes) (obj : gmap Attribute bytes),
        encode_dsa_domain_parameters (<[a := repeat x00 k ++ b]> obj)
        = encode_dsa_domain_parameters (<[a := b]> obj)).
Proof.
  split.
  - intros k b key. unfold encode_dsa_public_key, getitem.
    rewrite !lookup_insert_eq. run_bind.
    rewrite int_from_bytes_zeros. reflexivity.
  - intros a k b obj. unfold encode_dsa_domain_parameters, getitem.
    destruct a.
    + rewrite !lookup_insert_eq, !lookup_insert_ne by discriminate. run_bind.
      rewrite int_from_bytes_zeros. reflexivity.
    + rewrite !lookup_insert_eq, !lookup_insert_ne by discriminate.
      destruct (obj !! BASE); [|reflexivity]. run_bind.
      rewrite int_from_bytes_zeros. reflexivity.
    + rewrite !lookup_insert_eq, !lookup_insert_ne by discriminate.
      destruct (obj !! BASE); [|reflexivity].
      destruct (obj !! PRIME); [|reflexivity]. run_bind.
      rewrite int_from_bytes_zeros. reflexivity.
    + rewrite !lookup_insert_ne by discriminate. reflexivity.
Qed.

(** ** Round trips on maps that are not normalised *)

(** X9: for any attribute map with BASE, PRIME and SUBPRIME present,
    [decode_dsa_domain_parameters(encode_dsa_domain_parameters(M))] is a
    map with exactly these three keys; each buffer is the helper's encoding
    of the integer of the corresponding buffer of [M], and reads back as
    the same integer. Other keys of [M] are not in the result. *)
Theorem domain_parameters_normalised
    (M : gmap Attribute bytes) (bg bp bq : bytes) :
  M !! BASE = Some bg -> M !! PRIME = Some bp -> M !! SUBPRIME = Some bq ->
  is_bytes bg -> is_bytes bp -> is_bytes bq ->
  exists bg' bp' bq',
    (der ← encode_dsa_domain_parameters M; decode_dsa_domain_parameters der)
    = Ok (<[BASE := bg']> (<[PRIME := bp']> (<[SUBPRIME := bq']> ∅)))
    /\ biginteger (Py.int_from_bytes bg) = Ok bg'
    /\ biginteger (Py.int_from_bytes bp) = Ok bp'
    /\ biginteger (Py.int_from_bytes bq) = Ok bq'
    /\ Py.int_from_bytes bg' = Py.int_from_bytes bg
    /\ Py.int_from_bytes bp' = Py.int_from_bytes bp
    /\ Py.int_from_bytes bq' = Py.int_from_bytes bq.
Proof.
  intros HB HP HS Hg Hp Hq.
  destruct (domain_parameters_encode_decode M bg bp bq HB HP HS Hg Hp Hq)
    as (der & Henc & Hdec).
  destruct (biginteger_ok _ (proj1 (int_from_bytes_range bg))) as [bg' Eg].
  destruct (biginteger_ok _ (proj1 (int_from_bytes_range bp))) as [bp' Ep].
  destruct (biginteger_ok _ (proj1 (int_from_bytes_range bq))) as [bq' Eq].
  exists bg', bp', bq'.
  rewrite Henc. run_bind. rewrite Hdec, Eg, Ep, Eq. run_bind.
  split; [reflexivity|].
  destruct (biginteger_inv _ _ Eg) as [_ Hg'].
  destruct (biginteger_inv _ _ Ep) as [_ Hp'].
  destruct (biginteger_inv _ _ Eq) as [_ Hq'].
  auto 10.
Qed.

Lemma domain_parameters_normalised_witness :
  exists bg' bp' bq',
    (der ← encode_dsa_domain_parameters
             (<[VALUE := [x09]]> (<[BASE := [x00; x02]]>
                (<[PRIME := [x00; x00; x07]]> (<[SUBPRIME := []]> ∅))));
     decode_dsa_domain_parameters der)
    = Ok (<[BASE := bg']> (<[PRIME := bp']> (<[SUBPRIME := bq']> ∅)))
    /\ biginteger (Py.int_from_bytes [x00; x02]) = Ok bg'
    /\ biginteger (Py.int_from_bytes [x00; x00; x07]) = Ok bp'
    /\ biginteger (Py.int_from_bytes []) = Ok bq'
    /\ Py.int_from_bytes bg' = Py.int_from_bytes [x00; x02]
    /\ Py.int_from_bytes bp' = Py.int_from_bytes [x00; x00; x07]
    /\ Py.int_from_bytes bq' = Py.int_from_bytes [].
Proof.
  apply (domain_parameters_normalised _ [x00; x02] [x00; x00; x07] []);
    try reflexivity;
    unfold is_bytes, PY_SSIZE_T_MAX; cbn [length]; lia.
Defined.

(** X10: for any VALUE buffer,
    [decode_dsa_public_key(encode_dsa_public_key(key))] is the helper's
    encoding of the integer of the buffer, and reads back as that
    integer. *)
Theorem public_key_normalised (key : gmap Attribute bytes) (b : bytes) :
  key !! VALUE = Some b -> is_bytes b ->
  exists b',
    (der ← encode_dsa_public_key key; decode_dsa_public_key der) = Ok b'
    /\ biginteger (Py.int_from_bytes b) = Ok b'
    /\ Py.int_from_bytes b' = Py.int_from_bytes b.
Proof.
  intros Hkey Hb. apply is_bytes_fit in Hb.
  destruct (encode_integer_ok _ _ Hb) as (der & Hder & _).
  { unfold PY_SSIZE_T_MAX. lia. }
  destruct (biginteger_ok _ (proj1 Hb)) as [b' Eb].
  exists b'. unfold encode_dsa_public_key.
  rewrite (getitem_Some _ _ _ Hkey). run_bind.
  unfold DER.encode_DSAPublicKey. rewrite Hder. run_bind.
  unfold decode_dsa_public_key, DER.decode_DSAPublicKey.
  rewrite <- (app_nil_r der).
  rewrite (decode_integer_encode _ der [] (proj1 Hb) Hder). run_bind.
  split; [exact Eb|]. split; [exact Eb|].
  apply (biginteger_inv _ _ Eb).
Qed.

Lemma public_key_normalised_witness :
  exists b',
    (der ← encode_dsa_public_key (<[VALUE := [x00; x00; x80]]> ∅);
     decode_dsa_public_key der) = Ok b'
    /\ biginteger (Py.int_from_bytes [x00; x00; x80]) = Ok b'
    /\ Py.int_from_bytes b' = Py.int_from_bytes [x00; x00; x80].
Proof.
  apply (public_key_normalised (<[VALUE := [x00; x00; x80]]> ∅) [x00; x00; x80]).
  - reflexivity.
  - unfold is_bytes, PY_SSIZE_T_MAX. cbn [length]. lia.
Defined.

(** ** Distinct signatures, distinct encodings *)

Lemma int_from_bytes_inj (l1 l2 : bytes) :
  length l1 = length l2 ->
  Py.int_from_bytes l1 = Py.int_from_bytes l2 -> l1 = l2.
Proof.
  intros Hlen Hval.
  rewrite <- (be_digits_int_from_bytes l1), <- (be_digits_int_from_bytes l2).
  rewrite Hlen, Hval. reflexivity.
Qed.

(** X11: two signature buffers of the same length with the same
    [encode_dsa_signature] output are equal. *)
Theorem signature_encode_injective (sig1 sig2 : bytes) :
  is_bytes sig1 ->
  length sig1 = length sig2 ->
  encode_dsa_signature sig1 = encode_dsa_signature sig2 ->
  sig1 = sig2.
Proof.
  intros Hb Hlen Heq.
  assert (Hb2 : is_bytes sig2) by (unfold is_bytes in *; rewrite <- Hlen; exact Hb).
  destruct (encode_dsa_signature_ok sig1 Hb) as (der1 & He1 & Hd1).
  destruct (encode_dsa_signature_ok sig2 Hb2) as (der2 & He2 & Hd2).
  rewrite He1, He2 in Heq. injection Heq as ->.
  rewrite Hd1 in Hd2. injection Hd2 as Hr Hs.
  rewrite <- Hlen in Hr, Hs.
  rewrite <- (take_drop (length sig1 / 2) sig1).
  rewrite <- (take_drop (length sig1 / 2) sig2).
  f_equal; apply int_from_bytes_inj; try assumption.
  - rewrite !length_take. lia.
  - rewrite !length_drop. lia.
Qed.

Lemma signature_encode_injective_witness :
  repeat x07 40 = repeat x07 40.
Proof.
  apply (signature_encode_injective (repeat x07 40) (repeat x07 40)).
  - unfold is_bytes, PY_SSIZE_T_MAX. cbn [length repeat]. lia.
  - reflexivity.
  - reflexivity.
Defined.

(** ** How [decode_dsa_signature] fails *)

(** X12: [decode_dsa_signature] fails in two ways only: with DECODE_ERROR,
    exactly when the DER decoder refuses the input, and with OVERFLOW,
    exactly when the input decodes to a Dss-Sig-Value with r or s outside
    [0, 2^160). *)
Theorem decode_signature_errors (der : bytes) :
  (forall e, decode_dsa_signature der = Err e ->
             e = DECODE_ERROR \/ e = OVERFLOW)
  /\ (decode_dsa_signature der = Err DECODE_ERROR
      <-> DER.decode_Dss_Sig_Value der = Err DECODE_ERROR)
  /\ (decode_dsa_signature der = Err OVERFLOW
      <-> exists a rest,
            DER.decode_Dss_Sig_Value der = Ok (a, rest)
            /\ ~ (0 <= DER.r a < 2 ^ 160 /\ 0 <= DER.s a < 2 ^ 160)).
Proof.
  rewrite <- pow_256_20.
  destruct (DER.decode_Dss_Sig_Value der) as [[a rest]|e0] eqn:Hdec.
  - rewrite (decode_dsa_signature_eq _ _ _ Hdec).
    destruct (Py.int_to_bytes (DER.r a) 20) as [rb|er] eqn:Er;
      [destruct (Py.int_to_bytes (DER.s a) 20) as [sb|es] eqn:Es|]; run_bind.
    + apply int_to_bytes_inv in Er as [Hr _], Es as [Hs _].
      split; [discriminate|]. split; [split; discriminate|].
      split; [discriminate|].
      intros (a' & rest' & [= <- <-] & Hout). tauto.
    + pose proof (int_to_bytes_err _ _ _ Es) as ->.
      split; [intros e [= <-]; auto|]. split; [split; discriminate|].
      split; [|reflexivity]. intros _. exists a, rest.
      split; [reflexivity|]. intros [_ Hs].
      rewrite (int_to_bytes_ok _ _ Hs) in Es. discriminate.
    + pose proof (int_to_bytes_err _ _ _ Er) as ->.
      split; [intros e [= <-]; auto|]. split; [split; discriminate|].
      split; [|reflexivity]. intros _. exists a, rest.
      split; [reflexivity|]. intros [Hr _].
      rewrite (int_to_bytes_ok _ _ Hr) in Er. discriminate.
  - pose proof (decode_Dss_Sig_Value_err _ _ Hdec) as ->.
    unfold decode_dsa_signature. rewrite Hdec. run_bind.
    split; [intros e [= <-]; auto|]. split; [tauto|].
    split; [discriminate|]. intros (a & rest & Habs & _). discriminate.
Qed.

Lemma decode_signature_errors_witness :
  DER.decode_Dss_Sig_Value [x30; x06; x02; x01; x01; x02; x01]
    = Err DECODE_ERROR.
Proof.
  apply (proj1 (proj1 (proj2 (decode_signature_errors
                                 [x30; x06; x02; x01; x01; x02; x01])))).
  vm_compute. reflexivity.
Defined.

(** ** The bytes on the wire *)

Section WireFormat.

Import Py DER.

(** The content octets of the INTEGER read from a buffer whose first byte
    is not zero: the buffer itself, after a zero octet when the first byte
    has its high bit set. *)
Lemma integer_octets_from_bytes (b : byte) (l : bytes) :
  0 < Z_of_byte b ->
  integer_octets (int_from_bytes (b :: l))
  = if 0x80 <=? Z_of_byte b then x00 :: b :: l else b :: l.
Proof.
  intros Hb. pose proof (Z_of_byte_range b) as HB.
  pose proof (int_from_bytes_range l) as Hr.
  pose proof (be_digits_int_from_bytes (b :: l)) as Hdig.
  pose proof (int_from_bytes_cons b l) as Hv.
  set (v := int_from_bytes (b :: l)) in *.
  set (n := Z.of_nat (length l)) in *.
  assert (Hn : 0 <= n) by (unfold n; lia).
  assert (HP : 256 ^ n = 2 ^ (8 * n)) by (apply pow_256; exact Hn).
  assert (HPpos : 0 < 256 ^ n) by (apply Z.pow_pos_nonneg; lia).
  assert (Hvpos : 0 < v) by nia.
  assert (Hvhi : v < 256 * 256 ^ n) by nia.
  unfold integer_octets.
  destruct (Z.eqb_spec v 0) as [|_]; [lia|].
  unfold bit_length. destruct (Z.eqb_spec v 0) as [|_]; [lia|].
  rewrite Z.abs_eq by lia.
  cbn [length] in Hdig.
  destruct (Z.leb_spec 0x80 (Z_of_byte b)) as [Hhigh|Hlow].
  - assert (Hlog : Z.log2 v = 8 * n + 7).
    { apply Z.log2_unique; [lia|].
      replace (Z.succ (8 * n + 7)) with (8 + 8 * n) by lia.
      rewrite !Z.pow_add_r, <- HP by lia.
      change (2 ^ 7) with 128. change (2 ^ 8) with 256. nia. }
    rewrite Hlog.
    replace ((8 * n + 7 + 1) / 8 + 1) with (Z.of_nat (S (S (length l)))).
    2:{ replace (8 * n + 7 + 1) with ((n + 1) * 8) by lia.
        rewrite Z.div_mul by lia. unfold n. lia. }
    rewrite Nat2Z.id.
    assert (Hfit : 0 <= v < 256 ^ Z.of_nat (S (length l))).
    { replace (Z.of_nat (S (length l))) with (Z.succ n) by (unfold n; lia).
      rewrite Z.pow_succ_r by lia. lia. }
    rewrite Z.mod_small.
    2:{ split; [lia|]. eapply Z.lt_le_trans; [apply Hfit|].
        apply Z.pow_le_mono_r; lia. }
    rewrite be_digits_S, Hdig, Z.div_small by exact Hfit. reflexivity.
  - assert (Hlo : 8 * n <= Z.log2 v).
    { apply Z.log2_le_pow2; [lia|]. rewrite <- HP. nia. }
    assert (Hup : Z.log2 v < 8 * n + 7).
    { apply Z.log2_lt_pow2; [lia|].
      rewrite Z.pow_add_r, <- HP by lia. change (2 ^ 7) with 128. nia. }
    assert (Hdiv : (Z.log2 v + 1) / 8 = n).
    { pose proof (Z.div_mod (Z.log2 v + 1) 8 ltac:(lia)).
      pose proof (Z.mod_pos_bound (Z.log2 v + 1) 8 ltac:(lia)). lia. }
    rewrite Hdiv. replace (Z.to_nat (n + 1)) with (S (length l)) by (unfold n; lia).
    rewrite Z.mod_small.
    2:{ replace (Z.of_nat (S (length l))) with (Z.succ n) by (unfold n; lia).
        rewrite Z.pow_succ_r by lia. lia. }
    exact Hdig.
Qed.

Lemma encode_tlv_short (tag : Tag) (c : bytes) :
  (length c < 128)%nat ->
  encode_tlv tag c
  = Ok (encode_tag tag :: byte_of_Z (Z.of_nat (length c)) :: c).
Proof.
  intros Hc. unfold encode_tlv, encode_length.
  destruct (Nat.ltb_spec (length c) 128) as [_|]; [|lia]. reflexivity.
Qed.

End WireFormat.

(** X13: the sign octet of the DER INTEGER. For a VALUE buffer whose first
    byte is not zero, [encode_dsa_public_key] writes an INTEGER whose
    content is the buffer itself, preceded by one zero octet when the first
    byte is 0x80 or more; for a buffer of at most 126 bytes the output is
    0x02, the content length, the content. *)
Theorem public_key_wire_format
    (key : gmap Attribute bytes) (b : byte) (l : bytes) :
  key !! VALUE = Some (b :: l) ->
  0 < Z_of_byte b ->
  let content := if 0x80 <=? Z_of_byte b then x00 :: b :: l else b :: l in
  encode_dsa_public_key key = DER.encode_tlv DER.TAG_INTEGER content
  /\ ((length l < 126)%nat ->
      encode_dsa_public_key key
      = Ok (x02 :: byte_of_Z (Z.of_nat (length content)) :: content)).
Proof.
  intros Hkey Hb content.
  assert (Henc : encode_dsa_public_key key = DER.encode_tlv DER.TAG_INTEGER content).
  { unfold encode_dsa_public_key. rewrite (getitem_Some _ _ _ Hkey). run_bind.
    unfold DER.encode_DSAPublicKey, DER.encode_integer.
    rewrite (integer_octets_from_bytes b l Hb). reflexivity. }
  split; [exact Henc|].
  intros Hl. rewrite Henc, encode_tlv_short; [reflexivity|].
  unfold content. destruct (0x80 <=? Z_of_byte b); cbn [length]; lia.
Qed.

Lemma public_key_wire_format_witness :
  encode_dsa_public_key (<[VALUE := [xff; x01]]> ∅)
  = Ok [x02; x03; x00; xff; x01].
Proof.
  refine (proj2 (public_key_wire_format (<[VALUE := [xff; x01]]> ∅) xff [x01] _ _) _).
  - reflexivity.
  - cbn. lia.
  - cbn [length]. lia.
Defined.

(** X14: the DER encoding of a 40-byte signature whose halves both start
    with a byte that is not zero: the SEQUENCE header 0x30 and the content
    length, then for each half the INTEGER header 0x02 0x14 and the 20
    bytes, or 0x02 0x15 0x00 and the 20 bytes when the half starts with a
    byte of 0x80 or more. *)
Theorem signature_wire_format (b1 b2 : byte) (l1 l2 : bytes) :
  length l1 = 19%nat -> length l2 = 19%nat ->
  0 < Z_of_byte b1 -> 0 < Z_of_byte b2 ->
  let int_der (b : byte) (l : bytes) : bytes :=
    if 0x80 <=? Z_of_byte b then [x02; x15; x00] ++ b :: l
    else [x02; x14] ++ b :: l in
  let body := int_der b1 l1 ++ int_der b2 l2 in
  encode_dsa_signature ((b1 :: l1) ++ (b2 :: l2))
  = Ok (x30 :: byte_of_Z (Z.of_nat (length body)) :: body).
Proof.
  intros Hl1 Hl2 Hb1 Hb2 int_der body.
  unfold encode_dsa_signature.
  rewrite length_app. cbn [length]. rewrite Hl1, Hl2.
  change ((20 + 20) / 2)%nat with 20%nat.
  rewrite take_app_length', drop_app_length' by (cbn [length]; lia).
  unfold DER.encode_Dss_Sig_Value, DER.encode_sequence. cbn [DER.r DER.s].
  cbn [DER.encode_components]. unfold DER.encode_integer.
  rewrite !integer_octets_from_bytes by assumption.
  unfold body, int_der.
  destruct (0x80 <=? Z_of_byte b1), (0x80 <=? Z_of_byte b2);
    rewrite !encode_tlv_short by (cbn [length]; lia); run_bind;
    rewrite app_nil_r;
    rewrite encode_tlv_short
      by (rewrite length_app; cbn [length]; lia);
    cbn [length]; rewrite ?Hl1, ?Hl2; reflexivity.
Qed.

Lemma signature_wire_format_witness :
  encode_dsa_signature ((x80 :: repeat x00 19) ++ (x01 :: repeat x00 19))
  = Ok ([x30; x2d]
          ++ ([x02; x15; x00] ++ x80 :: repeat x00 19)
          ++ ([x02; x14] ++ x01 :: repeat x00 19)).
Proof.
  apply (signature_wire_format x80 x01 (repeat x00 19) (repeat x00 19)).
  - reflexivity.
  - reflexivity.
  - cbn. lia.
  - cbn. lia.
Defined.

(** ** The result of [decode_dsa_signature] *)

(** X15: every result of [decode_dsa_signature] is 40 bytes long and is
    unchanged by a further [encode_dsa_signature] followed by
    [decode_dsa_signature]. *)
Theorem decode_signature_stable (der out : bytes) :
  decode_dsa_signature der = Ok out ->
  length out = 40%nat
  /\ (der' ← encode_dsa_signature out; decode_dsa_signature der') = Ok out.
Proof.
  intros Hout.
  assert (Hlen : length out = 40%nat).
  { destruct (DER.decode_Dss_Sig_Value der) as [[a rest]|e] eqn:Hd.
    2:{ unfold decode_dsa_signature in Hout. rewrite Hd in Hout. discriminate. }
    rewrite (decode_dsa_signature_eq _ _ _ Hd) in Hout.
    destruct (Py.int_to_bytes (DER.r a) 20) as [rb|e] eqn:Er; [|discriminate].
    destruct (Py.int_to_bytes (DER.s a) 20) as [sb|e] eqn:Es; [|discriminate].
    injection Hout as <-.
    apply int_to_bytes_inv in Er as [_ ->], Es as [_ ->].
    rewrite length_app, !be_digits_length. reflexivity. }
  split; [exact Hlen|].
  destruct (encode_dsa_signature_ok out) as (der' & Henc & Hdec).
  { unfold is_bytes, PY_SSIZE_T_MAX. rewrite Hlen. lia. }
  rewrite Henc. run_bind. rewrite (decode_dsa_signature_eq _ _ _ Hdec).
  rewrite Hlen. change (40 / 2)%nat with 20%nat. cbn [DER.r DER.s].
  rewrite (int_to_bytes_pad 20 (take 20 out)) by (rewrite length_take; lia).
  run_bind.
  rewrite (int_to_bytes_pad 20 (drop 20 out)) by (rewrite length_drop; lia).
  run_bind.
  rewrite length_take, length_drop, Hlen. cbn [repeat app Nat.sub Nat.min].
  rewrite take_drop. reflexivity.
Qed.

Lemma decode_signature_stable_witness :
  length (repeat x00 19 ++ [x01] ++ repeat x00 19 ++ [x01]) = 40%nat
  /\ (der' ← encode_dsa_signature
               (repeat x00 19 ++ [x01] ++ repeat x00 19 ++ [x01]);
      decode_dsa_signature der')
     = Ok (repeat x00 19 ++ [x01] ++ repeat x00 19 ++ [x01]).
Proof.
  apply (decode_signature_stable [x30; x06; x02; x01; x01; x02; x01; x01]).
  vm_compute. reflexivity.
Defined.

(** ** The size of an encoded signature *)

Lemma integer_octets_nonempty (v : Z) : (1 <= length (DER.integer_octets v))%nat.
Proof.
  unfold DER.integer_octets. destruct (v =? 0); [cbn; lia|].
  rewrite be_digits_length.
  pose proof (bit_length_nonneg v).
  assert (0 <= Py.bit_length v / 8) by (apply Z.div_pos; lia). lia.
Qed.

(** X16: the DER encoding of a 40-byte signature is between 8 and 48
    bytes long; it starts with 0x30 followed by one length byte, the
    number of bytes after it. *)
Theorem signature_encoding_size (sig : bytes) :
  length sig = 40%nat ->
  exists body,
    encode_dsa_signature sig
    = Ok (x30 :: byte_of_Z (Z.of_nat (length body)) :: body)
    /\ (6 <= length body <= 46)%nat.
Proof.
  intros Hlen. unfold encode_dsa_signature.
  rewrite Hlen. change (40 / 2)%nat with 20%nat.
  set (r := Py.int_from_bytes (take 20 sig)).
  set (s := Py.int_from_bytes (drop 20 sig)).
  assert (Hfit : forall l : bytes, length l = 20%nat ->
            (1 <= length (DER.integer_octets (Py.int_from_bytes l)) <= 21)%nat).
  { intros l Hl. split; [apply integer_octets_nonempty|].
    apply (integer_octets_length _ 20).
    rewrite <- Hl. apply int_from_bytes_range. }
  assert (Hr : (1 <= length (DER.integer_octets r) <= 21)%nat)
    by (apply Hfit; rewrite length_take; lia).
  assert (Hs : (1 <= length (DER.integer_octets s) <= 21)%nat)
    by (apply Hfit; rewrite length_drop; lia).
  unfold DER.encode_Dss_Sig_Value, DER.encode_sequence. cbn [DER.r DER.s].
  cbn [DER.encode_components]. unfold DER.encode_integer.
  rewrite !encode_tlv_short by lia. run_bind. rewrite app_nil_r.
  rewrite encode_tlv_short by (rewrite length_app; cbn [length]; lia).
  eexists. split; [reflexivity|].
  rewrite length_app. cbn [length]. lia.
Qed.

Lemma signature_encoding_size_witness :
  exists body,
    encode_dsa_signature (repeat xff 40)
    = Ok (x30 :: byte_of_Z (Z.of_nat (length body)) :: body)
    /\ (6 <= length body <= 46)%nat.
Proof.
  apply (signature_encoding_size (repeat xff 40)). reflexivity.
Defined.
